(** * pgxhelper: the context-carried transaction mechanism and its facade

    A shallow embedding of [database.go], of the query verbs and of the
    named-query variant, followed by the properties the specification
    states about them.

    Go values are modelled as follows.
    - [error] is an optional error value: [None] is Go's [nil].
    - A pointer that may be [nil] ([*pgxpool.Pool]) is an [option] of a
      handle; a method call through a [nil] pointer panics.
    - An interface value that may be [nil] ([pgx.Tx]) is an [option] too.
    - Calls into the driver and into the row-mapping collaborator change
      the outside world; they are state transformers over an abstract
      [World].  Code of this repository may in addition panic. *)

From Stdlib Require Import ZArith.
From stdpp Require Import base strings list gmap.

Local Open Scope string_scope.

(** ** Go's [any], restricted to the dynamic types this code meets *)

Definition TxHandle := nat.
Definition PoolHandle := nat.

Inductive any :=
| anyNil
| anyString (s : string)
| anyInt (n : Z)
| anyStrings (l : list string)
| anyTx (t : TxHandle).

#[global] Instance any_eq_dec : EqDecision any.
Proof. solve_decision. Defined.

(** ** Package [errors] and [fmt.Errorf] with the verb [%w] *)

Module errors.

(** [errorString] is what [errors.New] builds, [wrapError] what
    [fmt.Errorf] builds for a format with one [%w].  Go compares
    sentinel errors by identity; here two sentinels are the same error
    when they carry the same text. *)
Inductive error :=
| errorString (s : string)
| wrapError (msg : string) (err : error).

#[global] Instance error_eq_dec : EqDecision error.
Proof. solve_decision. Defined.

Definition New (text : string) : error := errorString text.

Definition Error (e : error) : string :=
  match e with
  | errorString s => s
  | wrapError msg _ => msg
  end.

Definition Unwrap (e : error) : option error :=
  match e with
  | errorString _ => None
  | wrapError _ err => Some err
  end.

(** The chain [errors.Is] and [errors.As] walk: the error itself, then
    what [Unwrap] yields, until it yields [nil]. *)
Fixpoint chain (e : error) : list error :=
  e :: match e with
       | errorString _ => []
       | wrapError _ err => chain err
       end.

Fixpoint Is (err target : error) : bool :=
  if decide (err = target) then true
  else match err with
       | errorString _ => false
       | wrapError _ inner => Is inner target
       end.

(** [errors.As]: the first error of the chain of the target type; a
    type is given by the test [is_target]. *)
Fixpoint As (err : error) (is_target : error -> bool) : option error :=
  if is_target err then Some err
  else match err with
       | errorString _ => None
       | wrapError _ inner => As inner is_target
       end.

End errors.

Module fmt.
Import errors.

(** [fmt.Errorf(prefix + "%w", err)]: the message is the prefix followed
    by the message of [err], and [Unwrap] gives [err] back. *)
Definition Errorf (prefix : string) (err : error) : error :=
  wrapError (prefix ++ Error err) err.

End fmt.

(** ** Package [context] *)

Module context.

(** Context keys are compared by dynamic type and value.  [txKey] is the
    value [txKey{}] of pgxhelper's unexported key type; [userKey] stands
    for the keys of every other type. *)
Inductive Key :=
| txKey
| userKey (name : string).

#[global] Instance Key_eq_dec : EqDecision Key.
Proof. solve_decision. Defined.

(** A context is an immutable chain of scopes. *)
Inductive Context :=
| Background
| TODO
| WithValue (parent : Context) (key : Key) (val : any)
| WithTimeout (parent : Context) (timeout : Z)
| WithCancel (parent : Context).

Fixpoint Value (ctx : Context) (key : Key) : any :=
  match ctx with
  | Background | TODO => anyNil
  | WithValue parent k v => if decide (k = key) then v else Value parent key
  | WithTimeout parent _ => Value parent key
  | WithCancel parent => Value parent key
  end.

Definition parent (ctx : Context) : option Context :=
  match ctx with
  | Background | TODO => None
  | WithValue p _ _ => Some p
  | WithTimeout p _ => Some p
  | WithCancel p => Some p
  end.

End context.

Export errors context.

(** ** Computations that change the world and may panic *)

Inductive outcome (A : Type) :=
| Ret (a : A)
| Panic (v : string).
Arguments Ret {A} a.
Arguments Panic {A} v.

Definition M (World A : Type) : Type := World -> outcome A * World.

#[global] Instance M_ret {World} : MRet (M World) :=
  fun A (a : A) w => (Ret a, w).

#[global] Instance M_bind {World} : MBind (M World) :=
  fun A B (k : A -> M World B) (m : M World A) w =>
    match m w with
    | (Ret a, w') => k a w'
    | (Panic v, w') => (Panic v, w')
    end.

Definition panic {World A} (v : string) : M World A :=
  fun w => (Panic v, w).

(** A call into the driver: it answers and leaves the world changed. *)
Definition call {World A} (op : World -> A * World) : M World A :=
  fun w => let (a, w') := op w in (Ret a, w').

(** What the Go runtime raises for a method call through a nil pointer or
    a nil interface. *)
Definition nilDereference : string :=
  "runtime error: invalid memory address or nil pointer dereference".

(** ** The driver: packages [pgx], [pgconn] and [pgxpool] *)

Module pgx.

(** [pgx.TxOptions]; its zero value has every field empty. *)
Record TxOptions := {
  IsoLevel : string;
  AccessMode : string;
  DeferrableMode : string;
  BeginQuery : string
}.

Definition zeroTxOptions : TxOptions :=
  {| IsoLevel := ""; AccessMode := ""; DeferrableMode := ""; BeginQuery := "" |}.

(** [pgx.Tx] is an interface: [None] is its nil value. *)
Definition Tx := option TxHandle.

(** [pgconn.CommandTag] with the count [RowsAffected] reads off it. *)
Record CommandTag := {
  commandTag : string;
  rowsAffected : Z
}.

Definition RowsAffected (tag : CommandTag) : Z := rowsAffected tag.

(** [pgxpool.Config], of which this code reads [ConnConfig.Database]. *)
Record Config := { Database : string }.

(** [pgx.Rows]: the rows a query produced, and what [Err] reports of
    them.  The driver records there a failure it meets after the call to
    [Query] has returned, while the rows are read or closed. *)
Record Rows := {
  rowsData : list (list any);
  rowsErr : option error
}.

(** The operations of the driver this repository calls.  They belong to
    the driver, not to this repository, so they are left abstract: each
    answers as Go declares it (a value paired with an error) and moves the
    world on.  [QueryRow], [SendBatch] and [CopyFrom] of the [Querier]
    interface are called nowhere in the repository and are left out. *)
Class Driver (World : Type) := {
  ParseConfig : string -> option Config * option error;
  NewWithConfig : Context -> option Config -> World -> (option PoolHandle * option error) * World;
  pool_Database : PoolHandle -> string;
  pool_Ping : PoolHandle -> Context -> World -> option error * World;
  pool_Close : PoolHandle -> World -> unit * World;
  pool_Exec : PoolHandle -> Context -> string -> list any -> World -> (CommandTag * option error) * World;
  pool_Query : PoolHandle -> Context -> string -> list any -> World -> (Rows * option error) * World;
  pool_BeginTx : PoolHandle -> Context -> TxOptions -> World -> (Tx * option error) * World;
  rows_Close : Rows -> World -> unit * World;
  tx_Exec : TxHandle -> Context -> string -> list any -> World -> (CommandTag * option error) * World;
  tx_Query : TxHandle -> Context -> string -> list any -> World -> (Rows * option error) * World;
  tx_Commit : TxHandle -> Context -> World -> option error * World;
  tx_Rollback : TxHandle -> Context -> World -> option error * World
}.

Section Calls.
Context {World : Type} {drv : Driver World}.

(** Method calls through [*pgxpool.Pool], which may be nil. *)
Definition Pool_Ping (p : option PoolHandle) (ctx : Context) : M World (option error) :=
  match p with
  | Some h => call (pool_Ping h ctx)
  | None => panic nilDereference
  end.

Definition Pool_Database (p : option PoolHandle) : M World string :=
  match p with
  | Some h => mret (pool_Database h)
  | None => panic nilDereference
  end.

Definition Pool_Close (p : option PoolHandle) : M World unit :=
  match p with
  | Some h => call (pool_Close h)
  | None => panic nilDereference
  end.

Definition Pool_Exec (p : option PoolHandle) (ctx : Context) (sql : string) (args : list any)
  : M World (CommandTag * option error) :=
  match p with
  | Some h => call (pool_Exec h ctx sql args)
  | None => panic nilDereference
  end.

Definition Pool_Query (p : option PoolHandle) (ctx : Context) (sql : string) (args : list any)
  : M World (Rows * option error) :=
  match p with
  | Some h => call (pool_Query h ctx sql args)
  | None => panic nilDereference
  end.

Definition Pool_BeginTx (p : option PoolHandle) (ctx : Context) (txOptions : TxOptions)
  : M World (Tx * option error) :=
  match p with
  | Some h => call (pool_BeginTx h ctx txOptions)
  | None => panic nilDereference
  end.

(** Method calls through the interface [pgx.Tx], which may be nil. *)
Definition Tx_Commit (tx : Tx) (ctx : Context) : M World (option error) :=
  match tx with
  | Some t => call (tx_Commit t ctx)
  | None => panic nilDereference
  end.

Definition Tx_Rollback (tx : Tx) (ctx : Context) : M World (option error) :=
  match tx with
  | Some t => call (tx_Rollback t ctx)
  | None => panic nilDereference
  end.

(** Modelled from the spec: [pgx.BeginTxFunc] is the driver's function and
    is not part of this repository.  It opens a transaction on [db] with
    the given options and hands it to [fn].  If [fn] returns no error it
    commits; if [fn] returns an error it rolls back and propagates that
    error unchanged.  A failure to begin is returned before [fn] is
    called, and the result of the commit is what the call returns.  The
    rollback is also what a panic of [fn] unwinds through. *)
Definition BeginTxFunc (ctx : Context) (db : option PoolHandle) (txOptions : TxOptions)
  (fn : Tx -> M World (option error)) : M World (option error) :=
  '(tx, err) ← Pool_BeginTx db ctx txOptions;
  match err with
  | Some e => mret (Some e)
  | None =>
      fun w =>
        match fn tx w with
        | (Ret None, w') => Tx_Commit tx ctx w'
        | (Ret (Some fErr), w') =>
            (_ ← Tx_Rollback tx ctx; mret (Some fErr)) w'
        | (Panic v, w') =>
            (Panic v, snd (Tx_Rollback tx ctx w'))
        end
  end.

End Calls.

End pgx.

Export pgx.

(** ** Package [pgxhelper]: [database.go] and the query verbs *)

Module pgxhelper.

(** The interface [Querier] ("execution target"): a value of it is a
    [*pgxpool.Pool] or a [pgx.Tx].  ([*pgx.Conn] implements it too, but no
    code of the repository produces one.) *)
Inductive Querier :=
| QuerierPool (p : option PoolHandle)
| QuerierTx (t : TxHandle).

#[global] Instance Querier_eq_dec : EqDecision Querier.
Proof. solve_decision. Defined.

(** [ctxWithTx] injects a transaction into a context. *)
Definition ctxWithTx (ctx : Context) (tx : Tx) : Context :=
  WithValue ctx txKey (match tx with Some t => anyTx t | None => anyNil end).

(** [ctxGetTx] extracts the transaction from a context: the type
    assertion to [pgx.Tx] succeeds on a transaction only. *)
Definition ctxGetTx (ctx : Context) : Tx :=
  match Value ctx txKey with
  | anyTx t => Some t
  | _ => None
  end.

Section Helper.
Context {World : Type} {drv : Driver World}.

(** [Querier.Exec], dispatched on the value behind the interface. *)
Definition Querier_Exec (q : Querier) (ctx : Context) (sql : string) (args : list any)
  : M World (CommandTag * option error) :=
  match q with
  | QuerierPool p => Pool_Exec p ctx sql args
  | QuerierTx t => call (tx_Exec t ctx sql args)
  end.

(** [Querier.Query], dispatched likewise. *)
Definition Querier_Query (q : Querier) (ctx : Context) (sql : string) (args : list any)
  : M World (Rows * option error) :=
  match q with
  | QuerierPool p => Pool_Query p ctx sql args
  | QuerierTx t => call (tx_Query t ctx sql args)
  end.

(** [*pgxscan.API], the row-mapping collaborator: it runs the query on
    the querier it is given and fills [dest]; the first component of its
    answer is [dest] afterwards. *)
Record ScanAPI := {
  scan_Get : Context -> Querier -> any -> string -> list any -> M World (any * option error);
  scan_Select : Context -> Querier -> any -> string -> list any -> M World (any * option error)
}.

Record DBHelper := {
  pool : option PoolHandle;
  scanAPI : ScanAPI
}.

Definition Option := DBHelper -> DBHelper.

Definition WithScanAPI (api : ScanAPI) : Option :=
  fun h => {| pool := pool h; scanAPI := api |}.

(** [New]; [defaultAPI] is what [mustNewAPI (mustNewDBScanAPI ...)] builds. *)
Definition New (defaultAPI : ScanAPI) (opts : list Option) : DBHelper :=
  foldl (fun h (opt : Option) => opt h) {| pool := None; scanAPI := defaultAPI |} opts.

(** [Ping] checks the connection to the database. *)
Definition DBHelper_Ping (d : DBHelper) (ctx : Context) : M World (option error) :=
  err ← Pool_Ping (pool d) ctx;
  match err with
  | Some e => mret (Some (fmt.Errorf "database ping error: " e))
  | None =>
      database ← Pool_Database (pool d);
      '(rows, err) ← Pool_Query (pool d) ctx
          "SELECT 1 AS result FROM pg_database WHERE datname = $1" [anyString database];
      match err with
      | Some e => mret (Some (fmt.Errorf "database query failure: " e))
      | None => _ ← call (rows_Close rows); mret None
      end
  end.

(** [Connect]; the helper is passed by pointer, so the helper as it is
    after the call is returned next to the error.  The deferred [cancel]
    of the setup context has no effect this model observes. *)
Definition DBHelper_Connect (d : DBHelper) (connStr : string) (timeout : Z)
  : M World (DBHelper * option error) :=
  let ctx := WithTimeout Background timeout in
  let '(conf, err) := ParseConfig connStr in
  match err with
  | Some e => mret (d, Some (fmt.Errorf "parse database config failure: " e))
  | None =>
      '(p, err) ← call (NewWithConfig ctx conf);
      let d := {| pool := p; scanAPI := scanAPI d |} in
      match err with
      | Some e => mret (d, Some (fmt.Errorf "database pool creation failure: " e))
      | None => r ← DBHelper_Ping d ctx; mret (d, r)
      end
  end.

Definition DBHelper_Close (d : DBHelper) : M World unit :=
  Pool_Close (pool d).

(** [Querier] returns the transaction of the context if it has one, and
    the connection pool otherwise. *)
Definition DBHelper_Querier (d : DBHelper) (ctx : Context) : Querier :=
  match ctxGetTx ctx with
  | Some tx => QuerierTx tx
  | None => QuerierPool (pool d)
  end.

(** [requireNoTransaction] panics if the context contains a transaction. *)
Definition DBHelper_requireNoTransaction (d : DBHelper) (ctx : Context) : M World unit :=
  match ctxGetTx ctx with
  | Some tx => panic "context already contains an unexpected transaction"
  | None => mret tt
  end.

(** [WithinTransaction] runs [fn] within a transactional context. *)
Definition DBHelper_WithinTransaction (d : DBHelper) (ctx : Context)
  (fn : Context -> M World (option error)) (opt : list TxOptions) : M World (option error) :=
  _ ← DBHelper_requireNoTransaction d ctx;
  let txOpt :=
    if bool_decide (0 < length opt)%nat
    then default zeroTxOptions (opt !! 0%nat)
    else zeroTxOptions in
  BeginTxFunc ctx (pool d) txOpt (fun tx => fn (ctxWithTx ctx tx)).

(** [Get] queries for a single row and scans it into [dest]. *)
Definition DBHelper_Get (d : DBHelper) (ctx : Context) (dest : any) (query : string)
  (args : list any) : M World (any * option error) :=
  scan_Get (scanAPI d) ctx (DBHelper_Querier d ctx) dest query args.

(** [Select] queries for multiple rows and scans them into a slice. *)
Definition DBHelper_Select (d : DBHelper) (ctx : Context) (dest : any) (query : string)
  (args : list any) : M World (any * option error) :=
  scan_Select (scanAPI d) ctx (DBHelper_Querier d ctx) dest query args.

(** [Exec] executes a query that returns no rows and gives the number of
    rows affected. *)
Definition DBHelper_Exec (d : DBHelper) (ctx : Context) (query : string) (args : list any)
  : M World (Z * option error) :=
  '(tag, err) ← Querier_Exec (DBHelper_Querier d ctx) ctx query args;
  match err with
  | Some e => mret (0%Z, Some (fmt.Errorf "exec failed: " e))
  | None => mret (RowsAffected tag, None)
  end.

End Helper.

End pgxhelper.

(** ** The row-mapping collaborator, package [pgxscan] *)

Module pgxscan.
Import pgxhelper.

(** What a collaborator is configured with: the error it answers when one
    row was asked for and none came, and how it maps one row, or all
    rows, onto a destination. *)
Record Mapping := {
  noRows : error;
  scanOne : any -> list any -> any;
  scanAll : any -> list (list any) -> any
}.

Section API.
Context {World : Type} {drv : Driver World}.

(** Modelled from the spec: the single-row call of the row-mapping
    collaborator, package [pgxscan], which is not part of this repository
    ("map one row from target+destination+query+args").  It executes the
    query on the target it is given and surfaces the distinguished
    no-rows condition when zero rows match; otherwise it maps the first
    row onto the destination. *)
Definition Get (m : Mapping) (ctx : Context) (q : Querier) (dest : any) (query : string)
  (args : list any) : M World (any * option error) :=
  '(rows, err) ← Querier_Query q ctx query args;
  match err with
  | Some e => mret (dest, Some e)
  | None =>
      _ ← call (rows_Close rows);
      match rowsData rows with
      | [] => mret (dest, Some (noRows m))
      | row :: _ => mret (scanOne m dest row, None)
      end
  end.

(** Modelled from the spec: the multi-row call of the same collaborator
    ("map many rows from target+destination+query+args"): it maps zero or
    more rows into the destination collection, and zero rows is success
    with an empty collection, not an error. *)
Definition Select (m : Mapping) (ctx : Context) (q : Querier) (dest : any) (query : string)
  (args : list any) : M World (any * option error) :=
  '(rows, err) ← Querier_Query q ctx query args;
  match err with
  | Some e => mret (dest, Some e)
  | None => _ ← call (rows_Close rows); mret (scanAll m dest (rowsData rows), None)
  end.

Definition NewAPI (m : Mapping) : ScanAPI :=
  {| scan_Get := Get m; scan_Select := Select m |}.

End API.

End pgxscan.

(** ** The named-query collaborator, package [sqlset] *)

Module sqlset.

Definition ErrQueryNotFound : error := errors.New "query not found".

(** What this repository uses of [*sqlset.SQLSet]: the lookup [Get] from
    a set name and a query name to SQL text. *)
Record SQLSet := {
  SQLSet_Get : string -> string -> string * option error
}.

(** Modelled from the spec: the lookup of package [sqlset], which is not
    part of this repository: a lookup keyed by a two-part identifier (a
    set name and a query name) returning SQL text, failing with the
    distinguished query-not-found condition when the identifier is
    unknown. *)
Definition fromMap (queries : gmap (string * string) string) : SQLSet :=
  {| SQLSet_Get setID queryID :=
       match queries !! (setID, queryID) with
       | Some text => (text, None)
       | None => ("", Some ErrQueryNotFound)
       end |}.

End sqlset.

(** ** Package [sqlsetpgxhelper]: the named-query variant *)

Module sqlsetpgxhelper.
Import sqlset.

Section Helper.
Context {World : Type} {drv : Driver World}.

(** [DBHelper] wraps a [pgxhelper.DBHelper] (the embedded field) and
    looks its queries up in a [sqlset.SQLSet]. *)
Record DBHelper := {
  embedded : pgxhelper.DBHelper (World := World);
  sqlSet : SQLSet
}.

Definition New (defaultAPI : pgxhelper.ScanAPI) (sqlSet : SQLSet)
  (opts : list pgxhelper.Option) : DBHelper :=
  {| embedded := pgxhelper.New defaultAPI opts; sqlSet := sqlSet |}.

Definition DBHelper_Get (d : DBHelper) (ctx : Context) (dest : any) (setID queryID : string)
  (args : list any) : M World (any * option error) :=
  let '(query, err) := SQLSet_Get (sqlSet d) setID queryID in
  match err with
  | Some e => mret (dest, Some e)
  | None => pgxhelper.DBHelper_Get (embedded d) ctx dest query args
  end.

Definition DBHelper_Select (d : DBHelper) (ctx : Context) (dest : any) (setID queryID : string)
  (args : list any) : M World (any * option error) :=
  let '(query, err) := SQLSet_Get (sqlSet d) setID queryID in
  match err with
  | Some e => mret (dest, Some e)
  | None => pgxhelper.DBHelper_Select (embedded d) ctx dest query args
  end.

Definition DBHelper_Exec (d : DBHelper) (ctx : Context) (setID queryID : string)
  (args : list any) : M World (Z * option error) :=
  let '(query, err) := SQLSet_Get (sqlSet d) setID queryID in
  match err with
  | Some e => mret (0%Z, Some e)
  | None => pgxhelper.DBHelper_Exec (embedded d) ctx query args
  end.

End Helper.

End sqlsetpgxhelper.

(** ** A driver that follows a script and logs every round trip

    The properties below hold for every driver.  This one makes them
    concrete: the world is the log of the calls that reached the
    database, and a script fixes what each call answers. *)

Module scripted.
Import pgxhelper.
Local Open Scope list_scope.

Inductive Event :=
| EvNewPool (ctx : Context) (conf : option Config)
| EvPing (p : PoolHandle) (ctx : Context)
| EvClose (p : PoolHandle)
| EvExec (q : Querier) (ctx : Context) (sql : string) (args : list any)
| EvQuery (q : Querier) (ctx : Context) (sql : string) (args : list any)
| EvRowsClose
| EvBeginTx (p : PoolHandle) (ctx : Context) (txOptions : TxOptions)
| EvCommit (t : TxHandle) (ctx : Context)
| EvRollback (t : TxHandle) (ctx : Context).

Definition Log := list Event.

Record Script := {
  on_parse : string -> option Config * option error;
  on_new : option Config -> option PoolHandle * option error;
  on_database : PoolHandle -> string;
  on_ping : PoolHandle -> option error;
  on_exec : string -> list any -> CommandTag * option error;
  on_query : string -> list any -> Rows * option error;
  on_begin : TxOptions -> option error;
  on_commit : TxHandle -> option error;
  on_rollback : TxHandle -> option error
}.

(** A transaction that begins gets the length of the log as its handle,
    which no earlier transaction has. *)
Definition driver (s : Script) : Driver Log := {|
  ParseConfig := on_parse s;
  NewWithConfig ctx conf w := (on_new s conf, w ++ [EvNewPool ctx conf]);
  pool_Database := on_database s;
  pool_Ping p ctx w := (on_ping s p, w ++ [EvPing p ctx]);
  pool_Close p w := (tt, w ++ [EvClose p]);
  pool_Exec p ctx sql args w :=
    (on_exec s sql args, w ++ [EvExec (QuerierPool (Some p)) ctx sql args]);
  pool_Query p ctx sql args w :=
    (on_query s sql args, w ++ [EvQuery (QuerierPool (Some p)) ctx sql args]);
  pool_BeginTx p ctx txOptions w :=
    (match on_begin s txOptions with
     | Some e => (None, Some e)
     | None => (Some (length w), None)
     end, w ++ [EvBeginTx p ctx txOptions]);
  rows_Close rows w := (tt, w ++ [EvRowsClose]);
  tx_Exec t ctx sql args w :=
    (on_exec s sql args, w ++ [EvExec (QuerierTx t) ctx sql args]);
  tx_Query t ctx sql args w :=
    (on_query s sql args, w ++ [EvQuery (QuerierTx t) ctx sql args]);
  tx_Commit t ctx w := (on_commit s t, w ++ [EvCommit t ctx]);
  tx_Rollback t ctx w := (on_rollback s t, w ++ [EvRollback t ctx])
|}.

Definition ErrNoRows : error := errors.New "no rows in result set".

(** A row-mapping collaborator over the scripted driver: it runs the
    query, and its single-row call answers [ErrNoRows] when no row came
    back. *)
Definition api (s : Script) : ScanAPI (World := Log) := {|
  scan_Get ctx q dest query args w :=
    let '(rows, err) := on_query s query args in
    (Ret (match err, rowsData rows with
          | Some e, _ => (dest, Some e)
          | None, [] => (dest, Some ErrNoRows)
          | None, row :: _ => (default anyNil (head row), None)
          end), w ++ [EvQuery q ctx query args]);
  scan_Select ctx q dest query args w :=
    let '(rows, err) := on_query s query args in
    (Ret (match err with
          | Some e => (dest, Some e)
          | None => (anyInt (Z.of_nat (length (rowsData rows))), None)
          end), w ++ [EvQuery q ctx query args])
|}.

(** A database that answers every call without error: one row affected
    by each statement, no row returned by any query. *)
Definition healthy : Script := {|
  on_parse connStr := (Some {| Database := connStr |}, None);
  on_new conf := (Some 1%nat, None);
  on_database p := "testdb";
  on_ping p := None;
  on_exec sql args := ({| commandTag := "INSERT 0 1"; rowsAffected := 1 |}, None);
  on_query sql args := ({| rowsData := []; rowsErr := None |}, None);
  on_begin txOptions := None;
  on_commit t := None;
  on_rollback t := None
|}.

Definition errDuplicateKey : error :=
  errors.New "duplicate key value violates unique constraint".
Definition errBadConnString : error := errors.New "cannot parse connection string".
Definition errNoPool : error := errors.New "cannot create pool".

(** The same database, with every statement rejected. *)
Definition rejecting : Script := {|
  on_parse := on_parse healthy;
  on_new := on_new healthy;
  on_database := on_database healthy;
  on_ping := on_ping healthy;
  on_exec sql args := ({| commandTag := ""; rowsAffected := 0 |}, Some errDuplicateKey);
  on_query := on_query healthy;
  on_begin := on_begin healthy;
  on_commit := on_commit healthy;
  on_rollback := on_rollback healthy
|}.

(** A driver that parses no connection string, and one that creates no
    pool. *)
Definition unparsable : Script := {|
  on_parse connStr := (None, Some errBadConnString);
  on_new := on_new healthy;
  on_database := on_database healthy;
  on_ping := on_ping healthy;
  on_exec := on_exec healthy;
  on_query := on_query healthy;
  on_begin := on_begin healthy;
  on_commit := on_commit healthy;
  on_rollback := on_rollback healthy
|}.

Definition poolless : Script := {|
  on_parse := on_parse healthy;
  on_new conf := (None, Some errNoPool);
  on_database := on_database healthy;
  on_ping := on_ping healthy;
  on_exec := on_exec healthy;
  on_query := on_query healthy;
  on_begin := on_begin healthy;
  on_commit := on_commit healthy;
  on_rollback := on_rollback healthy
|}.

(** A database that rejects every query when it executes it: the call to
    [Query] returns no error, and the rows carry the failure. *)
Definition errAtExecute : error := errors.New "permission denied for table pg_database".

Definition failingAtExecute : Script := {|
  on_parse := on_parse healthy;
  on_new := on_new healthy;
  on_database := on_database healthy;
  on_ping := on_ping healthy;
  on_exec := on_exec healthy;
  on_query sql args := ({| rowsData := []; rowsErr := Some errAtExecute |}, None);
  on_begin := on_begin healthy;
  on_commit := on_commit healthy;
  on_rollback := on_rollback healthy
|}.

(** A collaborator as the specification describes it, whose no-rows
    condition wraps the driver's [ErrNoRows]. *)
Definition mapping : pgxscan.Mapping := {|
  pgxscan.noRows := fmt.Errorf "scanning one: " ErrNoRows;
  pgxscan.scanOne dest row := default anyNil (head row);
  pgxscan.scanAll dest rows := anyInt (Z.of_nat (length rows))
|}.

(** A database that begins no transaction, and one that answers no
    ping. *)
Definition errNoBegin : error := errors.New "cannot begin transaction".
Definition errNoPing : error := errors.New "connection refused".

Definition refusing : Script := {|
  on_parse := on_parse healthy;
  on_new := on_new healthy;
  on_database := on_database healthy;
  on_ping := on_ping healthy;
  on_exec := on_exec healthy;
  on_query := on_query healthy;
  on_begin txOptions := Some errNoBegin;
  on_commit := on_commit healthy;
  on_rollback := on_rollback healthy
|}.

Definition unreachable : Script := {|
  on_parse := on_parse healthy;
  on_new := on_new healthy;
  on_database := on_database healthy;
  on_ping p := Some errNoPing;
  on_exec := on_exec healthy;
  on_query := on_query healthy;
  on_begin := on_begin healthy;
  on_commit := on_commit healthy;
  on_rollback := on_rollback healthy
|}.

Definition helper (s : Script) (p : option PoolHandle) : DBHelper (World := Log) :=
  {| pool := p; scanAPI := api s |}.

(** Units of work, after the repository's tests: one insert that must
    affect one row, and a unit of work that opens a transaction of its
    own on the context it was given. *)
Definition insertUser (s : Script) (p : option PoolHandle) (txCtx : Context)
  : M Log (option error) :=
  '(r, err) ← DBHelper_Exec (drv := driver s) (helper s p) txCtx
      "INSERT INTO users (id, name, email) VALUES ($1, $2, $3)"
      [anyString "111"; anyString "Alice"; anyString "alice@example.com"];
  match err with
  | Some e => mret (Some e)
  | None =>
      if decide (r = 1%Z) then mret None
      else mret (Some (errors.New "expected 1 row affected"))
  end.

Definition nestedWork (s : Script) (p : option PoolHandle) (txCtx : Context)
  : M Log (option error) :=
  DBHelper_WithinTransaction (drv := driver s) (helper s p) txCtx (insertUser s p) [].

(** A request context as a caller builds it, and the context a unit of
    work derives from the one it was given. *)
Definition requestCtx : Context :=
  WithValue (WithTimeout Background 30) (userKey "request-id") (anyString "r-1").

Definition txCtx : Context :=
  WithCancel (ctxWithTx requestCtx (Some 7%nat)).

Definition insertSQL : string :=
  "INSERT INTO customers (id, name, email) VALUES ($1, $2, $3);".

(** The query set of the repository's tests, in part, and a helper of the
    named-query variant over it. *)
Definition queries : gmap (string * string) string :=
  {[ ("test", "InsertCustomer") := insertSQL ]}.

Definition namedHelper (s : Script) (p : option PoolHandle)
  : sqlsetpgxhelper.DBHelper (World := Log) :=
  {| sqlsetpgxhelper.embedded := helper s p;
     sqlsetpgxhelper.sqlSet := sqlset.fromMap queries |}.

Definition serializable : TxOptions :=
  {| IsoLevel := "serializable"; AccessMode := ""; DeferrableMode := ""; BeginQuery := "" |}.

Definition readOnly : TxOptions :=
  {| IsoLevel := ""; AccessMode := "read only"; DeferrableMode := ""; BeginQuery := "" |}.

End scripted.

Export pgxhelper.

(** ** Vocabulary of the specification *)

(** [Derived c0 ctx]: [ctx] descends from [c0] through scopes that do not
    bind pgxhelper's private key: values under other keys, timeouts and
    cancellations.  This is all that code outside the package can add. *)
Inductive Derived (c0 : Context) : Context -> Prop :=
| Derived_refl : Derived c0 c0
| Derived_value ctx k v : k ≠ txKey -> Derived c0 ctx -> Derived c0 (WithValue ctx k v)
| Derived_timeout ctx timeout : Derived c0 ctx -> Derived c0 (WithTimeout ctx timeout)
| Derived_cancel ctx : Derived c0 ctx -> Derived c0 (WithCancel ctx).

(** A context no transaction was ever attached to. *)
Definition Plain (ctx : Context) : Prop :=
  Derived Background ctx \/ Derived TODO ctx.

(** A context that descends from one to which [t] was attached. *)
Definition Carries (ctx : Context) (t : TxHandle) : Prop :=
  exists c0, Derived (ctxWithTx c0 (Some t)) ctx.

(** The options [WithinTransaction] begins with: the first one given, or
    the zero value. *)
Definition firstOrZero (opt : list TxOptions) : TxOptions :=
  default zeroTxOptions (head opt).

(** The query [Ping] sends to the catalog. *)
Definition catalogQuery : string :=
  "SELECT 1 AS result FROM pg_database WHERE datname = $1".

(** What it would mean for [Ping] to confirm that the database is named
    correctly, on the scripted driver: whenever [Ping] reports success,
    the catalog holds a database of the configured name, that is, the
    catalog query had a row to return. *)
Definition Ping_confirms_name : Prop :=
  forall (s : scripted.Script) (p : PoolHandle) (ctx : Context) (w w' : scripted.Log),
    DBHelper_Ping (drv := scripted.driver s) (scripted.helper s (Some p)) ctx w = (Ret None, w') ->
    rowsData (scripted.on_query s catalogQuery [anyString (scripted.on_database s p)]).1
      ≠ [].

(** * Properties *)

(** ** Errors *)

Lemma Error_Errorf prefix e : Error (fmt.Errorf prefix e) = prefix ++ Error e.
Proof. reflexivity. Qed.

Lemma Unwrap_Errorf prefix e : Unwrap (fmt.Errorf prefix e) = Some e.
Proof. reflexivity. Qed.

Lemma chain_Errorf prefix e : chain (fmt.Errorf prefix e) = fmt.Errorf prefix e :: chain e.
Proof. reflexivity. Qed.

Lemma Is_refl e : Is e e = true.
Proof. destruct e; simpl; rewrite decide_True; done. Qed.

Lemma Is_chain err target : Is err target = true <-> target ∈ chain err.
Proof.
  induction err as [s | msg inner IH]; simpl.
  - destruct (decide (errorString s = target)) as [<- | Hne].
    + split; [intros _; apply list_elem_of_here | done].
    + split; [done | ].
      intros Hin. apply list_elem_of_singleton in Hin. congruence.
  - destruct (decide (wrapError msg inner = target)) as [<- | Hne].
    + split; [intros _; apply list_elem_of_here | done].
    + rewrite IH. split.
      * intros Hin. by apply list_elem_of_further.
      * intros Hin. apply elem_of_cons in Hin as [Heq | Hin]; [congruence | done].
Qed.

(** Wrapping hides nothing: whatever [errors.Is] finds in an error it
    still finds in the wrapped error. *)
Lemma Is_Errorf prefix e target :
  Is e target = true -> Is (fmt.Errorf prefix e) target = true.
Proof.
  intros H. unfold fmt.Errorf. simpl.
  destruct (decide (wrapError (prefix ++ Error e) e = target)); done.
Qed.

(** [errors.As] looks through the wrapper unless the wrapper itself is of
    the type looked for. *)
Lemma As_Errorf prefix e is_target :
  is_target (fmt.Errorf prefix e) = false ->
  As (fmt.Errorf prefix e) is_target = As e is_target.
Proof. intros H. unfold fmt.Errorf in *. simpl. by rewrite H. Qed.

(** ** Contexts *)

Lemma Derived_Value c0 ctx : Derived c0 ctx -> Value ctx txKey = Value c0 txKey.
Proof.
  induction 1 as [ | ctx k v Hk _ IH | ctx timeout _ IH | ctx _ IH]; simpl; try done.
  by rewrite decide_False.
Qed.

Lemma Derived_ctxGetTx c0 ctx : Derived c0 ctx -> ctxGetTx ctx = ctxGetTx c0.
Proof. intros H. unfold ctxGetTx. by rewrite (Derived_Value c0 ctx H). Qed.

Lemma Plain_ctxGetTx ctx : Plain ctx -> ctxGetTx ctx = None.
Proof. intros [H | H]; by rewrite (Derived_ctxGetTx _ _ H). Qed.

Lemma ctxGetTx_ctxWithTx ctx tx : ctxGetTx (ctxWithTx ctx tx) = tx.
Proof.
  unfold ctxGetTx, ctxWithTx. by destruct tx.
Qed.

Lemma Carries_ctxGetTx ctx t : Carries ctx t -> ctxGetTx ctx = Some t.
Proof.
  intros [c0 H]. rewrite (Derived_ctxGetTx _ _ H). apply ctxGetTx_ctxWithTx.
Qed.

(** Attaching a nil transaction attaches nothing. *)
Lemma ctxGetTx_ctxWithTx_nil ctx : ctxGetTx (ctxWithTx ctx None) = None.
Proof. apply ctxGetTx_ctxWithTx. Qed.

(** ** The resolver *)

Section Resolver.
Context {World : Type}.
Implicit Types (d : DBHelper (World := World)) (ctx : Context) (t : TxHandle).

Lemma Querier_ctxGetTx d ctx :
  DBHelper_Querier d ctx =
    match ctxGetTx ctx with Some t => QuerierTx t | None => QuerierPool (pool d) end.
Proof. reflexivity. Qed.

(** C1.  The resolver returns the helper's pool for every context that
    carries no transaction, and the attached transaction for every context
    that carries one.  "Carries" is read both ways: by what the lookup
    [ctxGetTx] finds, and by how the context was built. *)
Theorem Querier_resolves d ctx :
  (ctxGetTx ctx = None -> DBHelper_Querier d ctx = QuerierPool (pool d)) /\
  (forall t, ctxGetTx ctx = Some t -> DBHelper_Querier d ctx = QuerierTx t) /\
  (Plain ctx -> DBHelper_Querier d ctx = QuerierPool (pool d)) /\
  (forall t, Carries ctx t -> DBHelper_Querier d ctx = QuerierTx t).
Proof.
  repeat split.
  - intros H. unfold DBHelper_Querier. by rewrite H.
  - intros t H. unfold DBHelper_Querier. by rewrite H.
  - intros H. unfold DBHelper_Querier. by rewrite (Plain_ctxGetTx ctx H).
  - intros t H. unfold DBHelper_Querier. by rewrite (Carries_ctxGetTx ctx t H).
Qed.

(** C2.  Resolving the context [ctxWithTx c0 t] yields [t].  The input
    [c0] is not changed: it is the parent of the new context, and every
    other key reads in the new context as it reads in [c0]. *)
Theorem attach_then_resolve d (c0 : Context) t :
  DBHelper_Querier d (ctxWithTx c0 (Some t)) = QuerierTx t /\
  parent (ctxWithTx c0 (Some t)) = Some c0 /\
  (forall k, k ≠ txKey -> Value (ctxWithTx c0 (Some t)) k = Value c0 k).
Proof.
  split; [ | split].
  - unfold DBHelper_Querier. by rewrite ctxGetTx_ctxWithTx.
  - reflexivity.
  - intros k Hk. unfold ctxWithTx. simpl. rewrite decide_False; [done | congruence].
Qed.

(** Attaching replaces what the context carried: the latest wins. *)
Lemma attach_shadows d (c0 : Context) t0 t :
  DBHelper_Querier d (ctxWithTx (ctxWithTx c0 (Some t0)) (Some t)) = QuerierTx t.
Proof. unfold DBHelper_Querier. by rewrite ctxGetTx_ctxWithTx. Qed.

End Resolver.

(** ** The transactional scope runner *)

Section Runner.
Context {World : Type} {drv : Driver World}.
Implicit Types (d : DBHelper (World := World)) (ctx : Context) (t : TxHandle).
Implicit Types (fn : Context -> M World (option error)) (opt : list TxOptions) (w : World).

Lemma requireNoTransaction_absent d ctx w :
  ctxGetTx ctx = None -> DBHelper_requireNoTransaction d ctx w = (Ret tt, w).
Proof. intros H. unfold DBHelper_requireNoTransaction. by rewrite H. Qed.

Lemma requireNoTransaction_present d ctx t w :
  ctxGetTx ctx = Some t ->
  DBHelper_requireNoTransaction d ctx w =
    (Panic "context already contains an unexpected transaction", w).
Proof. intros H. unfold DBHelper_requireNoTransaction. by rewrite H. Qed.

Lemma txOpt_firstOrZero opt :
  (if bool_decide (0 < length opt)%nat
   then default zeroTxOptions (opt !! 0%nat)
   else zeroTxOptions) = firstOrZero opt.
Proof. by destruct opt. Qed.

(** On a context without a transaction the runner is the driver's
    [BeginTxFunc] on the helper's pool, with the options chosen and with
    the unit of work given the derived context. *)
Lemma WithinTransaction_BeginTxFunc d ctx fn opt w :
  ctxGetTx ctx = None ->
  DBHelper_WithinTransaction d ctx fn opt w =
    BeginTxFunc ctx (pool d) (firstOrZero opt) (fun tx => fn (ctxWithTx ctx tx)) w.
Proof.
  intros H. unfold DBHelper_WithinTransaction, mbind, M_bind.
  rewrite (requireNoTransaction_absent d ctx w H).
  by rewrite txOpt_firstOrZero.
Qed.

(** C3.  On a context that already carries a transaction the runner
    panics, whatever the unit of work and the options: it returns no
    error value, and the world is as it was, so no transaction was begun
    and the unit of work did not run. *)
Theorem WithinTransaction_nested_panics d ctx t fn opt w :
  ctxGetTx ctx = Some t ->
  DBHelper_WithinTransaction d ctx fn opt w =
    (Panic "context already contains an unexpected transaction", w).
Proof.
  intros H. unfold DBHelper_WithinTransaction, mbind, M_bind.
  by rewrite (requireNoTransaction_present d ctx t w H).
Qed.

(** A failure to begin is returned as the driver gave it, and the unit
    of work does not run. *)
Lemma WithinTransaction_begin_failure d ctx fn opt p tx e w w1 :
  ctxGetTx ctx = None ->
  pool d = Some p ->
  pool_BeginTx p ctx (firstOrZero opt) w = ((tx, Some e), w1) ->
  DBHelper_WithinTransaction d ctx fn opt w = (Ret (Some e), w1).
Proof.
  intros Hctx Hpool Hbegin. rewrite WithinTransaction_BeginTxFunc by done.
  unfold BeginTxFunc, Pool_BeginTx, call, mbind, M_bind.
  by rewrite Hpool, Hbegin.
Qed.

(** A helper that was never connected has no pool to begin on. *)
Lemma WithinTransaction_unconnected d ctx fn opt w :
  ctxGetTx ctx = None ->
  pool d = None ->
  DBHelper_WithinTransaction d ctx fn opt w = (Panic nilDereference, w).
Proof.
  intros Hctx Hpool. rewrite WithinTransaction_BeginTxFunc by done.
  unfold BeginTxFunc, Pool_BeginTx, mbind, M_bind.
  by rewrite Hpool.
Qed.

(** C4.  On a context without a transaction, once the transaction [t] has
    begun: if the unit of work returns nil the runner commits [t] and
    returns what the commit returns; if it returns an error [E] the runner
    rolls [t] back and returns [E] itself, whatever the rollback answers.
    The runner builds no error of its own. *)
Theorem WithinTransaction_commits_or_rolls_back d ctx fn opt p t w w1 r w2 :
  ctxGetTx ctx = None ->
  pool d = Some p ->
  pool_BeginTx p ctx (firstOrZero opt) w = ((Some t, None), w1) ->
  fn (ctxWithTx ctx (Some t)) w1 = (Ret r, w2) ->
  match r with
  | None =>
      DBHelper_WithinTransaction d ctx fn opt w =
        (Ret (tx_Commit t ctx w2).1, (tx_Commit t ctx w2).2)
  | Some E =>
      DBHelper_WithinTransaction d ctx fn opt w =
        (Ret (Some E), (tx_Rollback t ctx w2).2)
  end.
Proof.
  intros Hctx Hpool Hbegin Hfn.
  rewrite WithinTransaction_BeginTxFunc by done.
  unfold BeginTxFunc, Pool_BeginTx, Tx_Commit, Tx_Rollback, call, mbind, M_bind.
  rewrite Hpool, Hbegin, Hfn.
  destruct r as [E | ].
  - by destruct (tx_Rollback t ctx w2).
  - by destruct (tx_Commit t ctx w2).
Qed.

(** When the unit of work panics, the panic goes on after the rollback. *)
Lemma WithinTransaction_work_panics d ctx fn opt p t w w1 v w2 :
  ctxGetTx ctx = None ->
  pool d = Some p ->
  pool_BeginTx p ctx (firstOrZero opt) w = ((Some t, None), w1) ->
  fn (ctxWithTx ctx (Some t)) w1 = (Panic v, w2) ->
  DBHelper_WithinTransaction d ctx fn opt w = (Panic v, (tx_Rollback t ctx w2).2).
Proof.
  intros Hctx Hpool Hbegin Hfn.
  rewrite WithinTransaction_BeginTxFunc by done.
  unfold BeginTxFunc, Pool_BeginTx, Tx_Rollback, call, mbind, M_bind.
  rewrite Hpool, Hbegin, Hfn.
  by destruct (tx_Rollback t ctx w2).
Qed.

(** C10.  With no options given the transaction begins with the zero
    value of the options; with one or more given it begins with the first,
    and the others change nothing. *)
Theorem WithinTransaction_options d ctx fn w :
  ctxGetTx ctx = None ->
  DBHelper_WithinTransaction d ctx fn [] w =
    BeginTxFunc ctx (pool d) zeroTxOptions (fun tx => fn (ctxWithTx ctx tx)) w /\
  (forall o rest,
     DBHelper_WithinTransaction d ctx fn (o :: rest) w =
       BeginTxFunc ctx (pool d) o (fun tx => fn (ctxWithTx ctx tx)) w) /\
  (forall o rest,
     DBHelper_WithinTransaction d ctx fn (o :: rest) w =
       DBHelper_WithinTransaction d ctx fn [o] w).
Proof.
  intros H. split; [ | split].
  - by rewrite WithinTransaction_BeginTxFunc.
  - intros o rest. by rewrite WithinTransaction_BeginTxFunc.
  - intros o rest. by rewrite !WithinTransaction_BeginTxFunc.
Qed.

End Runner.

(** ** The query verbs *)

Section Verbs.
Context {World : Type} {drv : Driver World}.
Implicit Types (d : DBHelper (World := World)) (ctx : Context) (w : World).

(** C5.  When the [Exec] of the resolved querier fails with [e],
    [DBHelper.Exec] returns the count 0 and an error whose message is
    "exec failed: " followed by the message of [e], which unwraps to [e],
    and in which [errors.Is] and [errors.As] find what they find in [e].
    When it succeeds, [DBHelper.Exec] returns the count the command tag
    reports and no error. *)
Theorem Exec_wraps_failure d ctx query args w tag err w' :
  Querier_Exec (DBHelper_Querier d ctx) ctx query args w = (Ret (tag, err), w') ->
  match err with
  | Some e =>
      exists wrapped,
        DBHelper_Exec d ctx query args w = (Ret (0%Z, Some wrapped), w') /\
        Error wrapped = "exec failed: " ++ Error e /\
        Unwrap wrapped = Some e /\
        (forall target, Is e target = true -> Is wrapped target = true) /\
        (forall is_target, is_target wrapped = false ->
                           As wrapped is_target = As e is_target)
  | None =>
      DBHelper_Exec d ctx query args w = (Ret (RowsAffected tag, None), w')
  end.
Proof.
  intros H. unfold DBHelper_Exec, mbind, M_bind. rewrite H.
  destruct err as [e | ]; [ | done].
  exists (fmt.Errorf "exec failed: " e). split; [done | ].
  split; [apply Error_Errorf | ].
  split; [apply Unwrap_Errorf | ].
  split; [intros target; apply Is_Errorf | intros is_target; apply As_Errorf].
Qed.

(** [Exec] runs on the transaction of the context when there is one. *)
Lemma Exec_in_transaction d ctx t query args w :
  ctxGetTx ctx = Some t ->
  Querier_Exec (DBHelper_Querier d ctx) ctx query args w =
    call (tx_Exec t ctx query args) w.
Proof. intros H. unfold DBHelper_Querier. by rewrite H. Qed.

(** On a helper without a pool and a context without a transaction there
    is nothing to run on. *)
Lemma Exec_unconnected d ctx query args w :
  ctxGetTx ctx = None ->
  pool d = None ->
  DBHelper_Exec d ctx query args w = (Panic nilDereference, w).
Proof.
  intros Hctx Hpool.
  unfold DBHelper_Exec, DBHelper_Querier, mbind, M_bind. rewrite Hctx. simpl.
  by rewrite Hpool.
Qed.

(** The error the row-mapping collaborator answers to the single-row
    call on the resolved querier is what [Get] returns: the same error,
    the same destination, the same world. *)
Lemma Get_returns_collaborator_error d ctx dest query args w dest' e w' :
  scan_Get (scanAPI d) ctx (DBHelper_Querier d ctx) dest query args w
    = (Ret (dest', Some e), w') ->
  DBHelper_Get d ctx dest query args w = (Ret (dest', Some e), w').
Proof. intros H. unfold DBHelper_Get. exact H. Qed.


(** With one row or more the same call maps the first row and returns
    nil, so the no-rows condition is returned for zero rows only. *)
Lemma Get_some_rows_gives_nil d (m : pgxscan.Mapping) ctx dest query args w rows w1 row rest :
  scanAPI d = pgxscan.NewAPI m ->
  Querier_Query (DBHelper_Querier d ctx) ctx query args w = (Ret (rows, None), w1) ->
  rowsData rows = row :: rest ->
  DBHelper_Get d ctx dest query args w
    = (Ret (pgxscan.scanOne m dest row, None), (rows_Close rows w1).2).
Proof.
  intros Hapi Hquery Hrows. unfold DBHelper_Get. rewrite Hapi. simpl.
  unfold pgxscan.Get, mbind, M_bind, mret, M_ret, call.
  rewrite Hquery. simpl.
  destruct (rows_Close rows w1) as [[] w2]. simpl. by rewrite Hrows.
Qed.

(** [Get] and [Select] are the collaborator's calls on the resolved
    querier, whatever they answer. *)
Lemma Get_is_scan_Get d ctx dest query args :
  DBHelper_Get d ctx dest query args =
    scan_Get (scanAPI d) ctx (DBHelper_Querier d ctx) dest query args.
Proof. reflexivity. Qed.

Lemma Select_is_scan_Select d ctx dest query args :
  DBHelper_Select d ctx dest query args =
    scan_Select (scanAPI d) ctx (DBHelper_Querier d ctx) dest query args.
Proof. reflexivity. Qed.

End Verbs.

(** ** The named-query variant *)

Section NamedQueries.
Context {World : Type} {drv : Driver World}.
Implicit Types (d : sqlsetpgxhelper.DBHelper (World := World)) (ctx : Context) (w : World).

(** C8.  When the lookup of the query fails with [e], [Exec] returns the
    count 0 and [e], and [Get] and [Select] return [e] with the
    destination untouched; in each case the world is as it was, so nothing
    reached the database. *)
Theorem unknown_query_reaches_no_database d ctx dest setID queryID args w text e :
  sqlset.SQLSet_Get (sqlsetpgxhelper.sqlSet d) setID queryID = (text, Some e) ->
  sqlsetpgxhelper.DBHelper_Exec d ctx setID queryID args w = (Ret (0%Z, Some e), w) /\
  sqlsetpgxhelper.DBHelper_Get d ctx dest setID queryID args w = (Ret (dest, Some e), w) /\
  sqlsetpgxhelper.DBHelper_Select d ctx dest setID queryID args w = (Ret (dest, Some e), w).
Proof.
  intros H.
  unfold sqlsetpgxhelper.DBHelper_Exec, sqlsetpgxhelper.DBHelper_Get,
    sqlsetpgxhelper.DBHelper_Select.
  by rewrite H.
Qed.

(** In particular, over a set given by a map: a name the map does not
    hold gives the query-not-found condition and the count 0, and nothing
    reaches the database. *)
Lemma unregistered_name_not_found (base : DBHelper (World := World))
  (queries : gmap (string * string) string) ctx setID queryID args w :
  queries !! (setID, queryID) = None ->
  sqlsetpgxhelper.DBHelper_Exec
      {| sqlsetpgxhelper.embedded := base;
         sqlsetpgxhelper.sqlSet := sqlset.fromMap queries |}
      ctx setID queryID args w
    = (Ret (0%Z, Some sqlset.ErrQueryNotFound), w).
Proof.
  intros H. unfold sqlsetpgxhelper.DBHelper_Exec. simpl. by rewrite H.
Qed.

(** A found query is handed to the verb of the wrapped helper. *)
Lemma known_query_delegates d ctx setID queryID args text :
  sqlset.SQLSet_Get (sqlsetpgxhelper.sqlSet d) setID queryID = (text, None) ->
  sqlsetpgxhelper.DBHelper_Exec d ctx setID queryID args =
    DBHelper_Exec (sqlsetpgxhelper.embedded d) ctx text args.
Proof. intros H. unfold sqlsetpgxhelper.DBHelper_Exec. by rewrite H. Qed.

End NamedQueries.

(** In a set given by a map, a name the map does not hold is answered by
    the query-not-found condition. *)
Lemma fromMap_unregistered (queries : gmap (string * string) string) setID queryID :
  queries !! (setID, queryID) = None ->
  sqlset.SQLSet_Get (sqlset.fromMap queries) setID queryID
    = ("", Some sqlset.ErrQueryNotFound).
Proof. intros H. simpl. by rewrite H. Qed.

Lemma fromMap_registered (queries : gmap (string * string) string) setID queryID text :
  queries !! (setID, queryID) = Some text ->
  sqlset.SQLSet_Get (sqlset.fromMap queries) setID queryID = (text, None).
Proof. intros H. simpl. by rewrite H. Qed.

(** ** Connection lifecycle *)

Section Lifecycle.
Context {World : Type} {drv : Driver World}.
Implicit Types (d : DBHelper (World := World)) (ctx : Context) (w : World).

(** C6.  On a helper that has no pool yet: when the connection string
    does not parse, [Connect] returns the wrapped error, nothing reaches
    the driver and the pool stays nil; when the creation of the pool fails
    (the driver answers a nil pool and an error), [Connect] returns the
    wrapped error and the pool is nil; when the pool is created, [Connect]
    runs [Ping] on it under the setup context and returns what [Ping]
    returns. *)
Theorem Connect_failure_leaves_no_pool d connStr timeout w :
  pool d = None ->
  (forall conf e,
     ParseConfig connStr = (conf, Some e) ->
     exists d',
       DBHelper_Connect d connStr timeout w =
         (Ret (d', Some (fmt.Errorf "parse database config failure: " e)), w) /\
       pool d' = None) /\
  (forall conf e w',
     ParseConfig connStr = (conf, None) ->
     NewWithConfig (WithTimeout Background timeout) conf w = ((None, Some e), w') ->
     exists d',
       DBHelper_Connect d connStr timeout w =
         (Ret (d', Some (fmt.Errorf "database pool creation failure: " e)), w') /\
       pool d' = None) /\
  (forall conf p w',
     ParseConfig connStr = (conf, None) ->
     NewWithConfig (WithTimeout Background timeout) conf w = ((p, None), w') ->
     DBHelper_Connect d connStr timeout w =
       (r ← DBHelper_Ping {| pool := p; scanAPI := scanAPI d |}
              (WithTimeout Background timeout);
        mret ({| pool := p; scanAPI := scanAPI d |}, r)) w').
Proof.
  intros Hpool. split; [ | split].
  - intros conf e Hparse. exists d. split; [ | done].
    unfold DBHelper_Connect. by rewrite Hparse.
  - intros conf e w' Hparse Hnew.
    exists {| pool := None; scanAPI := scanAPI d |}. split; [ | done].
    unfold DBHelper_Connect, call, mbind, M_bind. by rewrite Hparse, Hnew.
  - intros conf p w' Hparse Hnew.
    unfold DBHelper_Connect, call. rewrite Hparse.
    unfold mbind at 1. unfold M_bind at 1. by rewrite Hnew.
Qed.

(** Whatever pool the driver answers next to an error is what the helper
    is left with. *)
Lemma Connect_creation_failure d connStr timeout w conf p e w' :
  ParseConfig connStr = (conf, None) ->
  NewWithConfig (WithTimeout Background timeout) conf w = ((p, Some e), w') ->
  DBHelper_Connect d connStr timeout w =
    (Ret ({| pool := p; scanAPI := scanAPI d |},
          Some (fmt.Errorf "database pool creation failure: " e)), w').
Proof.
  intros Hparse Hnew.
  unfold DBHelper_Connect, call, mbind, M_bind. by rewrite Hparse, Hnew.
Qed.

(** A connection string that does not parse leaves the helper as it was,
    a pool it already had included. *)
Lemma Connect_parse_failure d connStr timeout w conf e :
  ParseConfig connStr = (conf, Some e) ->
  DBHelper_Connect d connStr timeout w =
    (Ret (d, Some (fmt.Errorf "parse database config failure: " e)), w).
Proof. intros Hparse. unfold DBHelper_Connect. by rewrite Hparse. Qed.

(** C7, as the code has it.  On a helper with a pool, [Ping] sends the
    driver's ping and, only when that returns no error, the catalog query
    with the configured database name as its argument.  It returns the
    error of the ping wrapped, or else the error that the call to [Query]
    itself returns wrapped, and nil when neither call returns an error:
    nil for every [rows] the call answers, whatever rows they hold and
    whatever [Err] reports of them, since they are closed unread.  In
    every case it returns: it does not panic. *)
Theorem Ping_outcomes d ctx p w :
  pool d = Some p ->
  match pool_Ping p ctx w with
  | (Some e, w1) =>
      DBHelper_Ping d ctx w = (Ret (Some (fmt.Errorf "database ping error: " e)), w1)
  | (None, w1) =>
      match pool_Query p ctx catalogQuery [anyString (pool_Database p)] w1 with
      | ((rows, Some e), w2) =>
          DBHelper_Ping d ctx w =
            (Ret (Some (fmt.Errorf "database query failure: " e)), w2)
      | ((rows, None), w2) =>
          DBHelper_Ping d ctx w = (Ret None, (rows_Close rows w2).2)
      end
  end.
Proof.
  intros Hpool.
  unfold DBHelper_Ping, Pool_Ping, Pool_Database, Pool_Query, call, mbind, M_bind,
    mret, M_ret, catalogQuery.
  rewrite Hpool.
  destruct (pool_Ping p ctx w) as [[e | ] w1]; [done | ].
  destruct (pool_Query p ctx _ _ w1) as [[rows [e | ]] w2]; [done | ].
  by destruct (rows_Close rows w2) as [[] w3].
Qed.

(** A helper that was never connected has no pool to ping. *)
Lemma Ping_unconnected d ctx w :
  pool d = None -> DBHelper_Ping d ctx w = (Panic nilDereference, w).
Proof.
  intros Hpool. unfold DBHelper_Ping, Pool_Ping, mbind, M_bind. by rewrite Hpool.
Qed.

End Lifecycle.

(** ** The properties on the scripted driver *)

Section Scripted.
Import scripted.
Local Open Scope list_scope.

Lemma requestCtx_Plain : Plain requestCtx.
Proof. left. apply Derived_value; [done | ]. apply Derived_timeout, Derived_refl. Defined.

Lemma txCtx_Carries : Carries txCtx 7.
Proof. exists requestCtx. apply Derived_cancel, Derived_refl. Defined.

Lemma Querier_resolves_witness :
  (Plain requestCtx /\
   DBHelper_Querier (helper healthy (Some 1)) requestCtx = QuerierPool (Some 1)) /\
  (Carries txCtx 7 /\
   DBHelper_Querier (helper healthy (Some 1)) txCtx = QuerierTx 7).
Proof.
  split; split.
  - exact requestCtx_Plain.
  - exact (proj1 (proj2 (proj2 (Querier_resolves (helper healthy (Some 1)) requestCtx)))
             requestCtx_Plain).
  - exact txCtx_Carries.
  - exact (proj2 (proj2 (proj2 (Querier_resolves (helper healthy (Some 1)) txCtx)))
             7 txCtx_Carries).
Defined.

Lemma attach_then_resolve_witness :
  DBHelper_Querier (helper healthy (Some 1)) (ctxWithTx requestCtx (Some 7)) = QuerierTx 7 /\
  DBHelper_Querier (helper healthy (Some 1)) requestCtx = QuerierPool (Some 1) /\
  Value (ctxWithTx requestCtx (Some 7)) (userKey "request-id") = anyString "r-1".
Proof.
  split; [ | split].
  - exact (proj1 (attach_then_resolve (helper healthy (Some 1)) requestCtx 7)).
  - reflexivity.
  - exact (proj2 (proj2 (attach_then_resolve (helper healthy (Some 1)) requestCtx 7))
             (userKey "request-id") ltac:(discriminate)).
Defined.

Lemma WithinTransaction_nested_panics_witness :
  ctxGetTx txCtx = Some 7 /\
  DBHelper_WithinTransaction (drv := driver healthy) (helper healthy (Some 1)) txCtx
      (insertUser healthy (Some 1)) [serializable] []
    = (Panic "context already contains an unexpected transaction", []).
Proof.
  split; [reflexivity | ].
  exact (WithinTransaction_nested_panics (drv := driver healthy) (helper healthy (Some 1))
           txCtx 7 (insertUser healthy (Some 1)) [serializable] [] eq_refl).
Defined.

(** A unit of work that opens a transaction of its own panics inside the
    outer one, which is rolled back. *)
Lemma nested_work_panics :
  DBHelper_WithinTransaction (drv := driver healthy) (helper healthy (Some 1)) Background
      (nestedWork healthy (Some 1)) [] []
    = (Panic "context already contains an unexpected transaction",
       [EvBeginTx 1 Background zeroTxOptions; EvRollback 0 Background]).
Proof. reflexivity. Qed.

Lemma WithinTransaction_commits_or_rolls_back_witness :
  DBHelper_WithinTransaction (drv := driver healthy) (helper healthy (Some 1)) Background
      (insertUser healthy (Some 1)) [] []
    = (Ret None,
       [EvBeginTx 1 Background zeroTxOptions;
        EvExec (QuerierTx 0) (ctxWithTx Background (Some 0))
          "INSERT INTO users (id, name, email) VALUES ($1, $2, $3)"
          [anyString "111"; anyString "Alice"; anyString "alice@example.com"];
        EvCommit 0 Background]) /\
  DBHelper_WithinTransaction (drv := driver rejecting) (helper rejecting (Some 1)) Background
      (insertUser rejecting (Some 1)) [] []
    = (Ret (Some (fmt.Errorf "exec failed: " errDuplicateKey)),
       [EvBeginTx 1 Background zeroTxOptions;
        EvExec (QuerierTx 0) (ctxWithTx Background (Some 0))
          "INSERT INTO users (id, name, email) VALUES ($1, $2, $3)"
          [anyString "111"; anyString "Alice"; anyString "alice@example.com"];
        EvRollback 0 Background]).
Proof.
  split.
  - exact (WithinTransaction_commits_or_rolls_back (drv := driver healthy)
             (helper healthy (Some 1)) Background (insertUser healthy (Some 1)) [] 1 0
             [] _ None _ eq_refl eq_refl eq_refl eq_refl).
  - exact (WithinTransaction_commits_or_rolls_back (drv := driver rejecting)
             (helper rejecting (Some 1)) Background (insertUser rejecting (Some 1)) [] 1 0
             [] _ (Some (fmt.Errorf "exec failed: " errDuplicateKey)) _
             eq_refl eq_refl eq_refl eq_refl).
Defined.

Lemma WithinTransaction_options_witness :
  ctxGetTx requestCtx = None /\
  DBHelper_WithinTransaction (drv := driver healthy) (helper healthy (Some 1)) requestCtx
      (insertUser healthy (Some 1)) [] []
    = BeginTxFunc (drv := driver healthy) requestCtx (Some 1) zeroTxOptions
        (fun tx => insertUser healthy (Some 1) (ctxWithTx requestCtx tx)) [] /\
  DBHelper_WithinTransaction (drv := driver healthy) (helper healthy (Some 1)) requestCtx
      (insertUser healthy (Some 1)) [serializable; readOnly] []
    = BeginTxFunc (drv := driver healthy) requestCtx (Some 1) serializable
        (fun tx => insertUser healthy (Some 1) (ctxWithTx requestCtx tx)) [].
Proof.
  split; [reflexivity | split].
  - exact (proj1 (WithinTransaction_options (drv := driver healthy)
                    (helper healthy (Some 1)) requestCtx (insertUser healthy (Some 1)) []
                    eq_refl)).
  - exact (proj1 (proj2 (WithinTransaction_options (drv := driver healthy)
                           (helper healthy (Some 1)) requestCtx
                           (insertUser healthy (Some 1)) [] eq_refl))
             serializable [readOnly]).
Defined.

(** The first call that reaches the database begins the transaction with
    the first option given; the second option appears nowhere. *)
Lemma first_option_begins :
  (DBHelper_WithinTransaction (drv := driver healthy) (helper healthy (Some 1)) Background
      (fun _ => mret None) [serializable; readOnly] []).2
    = [EvBeginTx 1 Background serializable; EvCommit 0 Background] /\
  (DBHelper_WithinTransaction (drv := driver healthy) (helper healthy (Some 1)) Background
      (fun _ => mret None) [] []).2
    = [EvBeginTx 1 Background zeroTxOptions; EvCommit 0 Background].
Proof. split; reflexivity. Qed.

Lemma Exec_wraps_failure_witness :
  (exists wrapped,
     DBHelper_Exec (drv := driver rejecting) (helper rejecting (Some 1)) Background
         insertSQL [anyString "111"] []
       = (Ret (0%Z, Some wrapped),
          [EvExec (QuerierPool (Some 1)) Background insertSQL [anyString "111"]]) /\
     Error wrapped = ("exec failed: " ++ Error errDuplicateKey)%string /\
     Unwrap wrapped = Some errDuplicateKey /\
     (forall target, Is errDuplicateKey target = true -> Is wrapped target = true) /\
     (forall is_target, is_target wrapped = false ->
                        As wrapped is_target = As errDuplicateKey is_target)) /\
  DBHelper_Exec (drv := driver healthy) (helper healthy (Some 1)) Background
      insertSQL [anyString "111"] []
    = (Ret (1%Z, None),
       [EvExec (QuerierPool (Some 1)) Background insertSQL [anyString "111"]]).
Proof.
  split.
  - exact (Exec_wraps_failure (drv := driver rejecting) (helper rejecting (Some 1))
             Background insertSQL [anyString "111"] [] _ (Some errDuplicateKey) _ eq_refl).
  - exact (Exec_wraps_failure (drv := driver healthy) (helper healthy (Some 1))
             Background insertSQL [anyString "111"] [] _ None _ eq_refl).
Defined.

(** The caller can still test for the constraint violation. *)
Lemma duplicate_key_is_found :
  Is (fmt.Errorf "exec failed: " errDuplicateKey) errDuplicateKey = true /\
  Error (fmt.Errorf "exec failed: " errDuplicateKey)
    = "exec failed: duplicate key value violates unique constraint".
Proof. split; reflexivity. Qed.

Lemma Get_returns_collaborator_error_witness :
  DBHelper_Get (helper healthy (Some 1)) Background anyNil
      "SELECT * FROM users WHERE id = $1" [anyString "999"] []
    = (Ret (anyNil, Some ErrNoRows),
       [EvQuery (QuerierPool (Some 1)) Background
          "SELECT * FROM users WHERE id = $1" [anyString "999"]]).
Proof.
  exact (Get_returns_collaborator_error (helper healthy (Some 1)) Background anyNil
           "SELECT * FROM users WHERE id = $1" [anyString "999"] [] anyNil ErrNoRows _
           eq_refl).
Defined.

Lemma unknown_query_reaches_no_database_witness :
  queries !! ("test", "Unknown") = None /\
  sqlsetpgxhelper.DBHelper_Exec (drv := driver healthy) (namedHelper healthy (Some 1))
      Background "test" "Unknown" [] []
    = (Ret (0%Z, Some sqlset.ErrQueryNotFound), []) /\
  sqlsetpgxhelper.DBHelper_Get (namedHelper healthy (Some 1))
      Background anyNil "test" "Unknown" [] []
    = (Ret (anyNil, Some sqlset.ErrQueryNotFound), []) /\
  sqlsetpgxhelper.DBHelper_Select (namedHelper healthy (Some 1))
      Background anyNil "test" "Unknown" [] []
    = (Ret (anyNil, Some sqlset.ErrQueryNotFound), []).
Proof.
  split; [reflexivity | ].
  exact (unknown_query_reaches_no_database (drv := driver healthy)
           (namedHelper healthy (Some 1)) Background anyNil "test" "Unknown" [] [] ""
           sqlset.ErrQueryNotFound eq_refl).
Defined.


(** The caller can test the error [Get] returned for the driver's
    no-rows condition. *)
Lemma no_rows_is_found :
  Is (pgxscan.noRows mapping) ErrNoRows = true.
Proof. reflexivity. Qed.

(** A registered name goes through to the database. *)
Lemma known_query_reaches_database :
  sqlsetpgxhelper.DBHelper_Exec (drv := driver healthy) (namedHelper healthy (Some 1))
      Background "test" "InsertCustomer" [anyString "333"] []
    = (Ret (1%Z, None),
       [EvExec (QuerierPool (Some 1)) Background insertSQL [anyString "333"]]).
Proof. reflexivity. Qed.

Lemma Connect_failure_leaves_no_pool_witness :
  (exists d',
     DBHelper_Connect (drv := driver unparsable) (helper unparsable None) "%%" 5 []
       = (Ret (d', Some (fmt.Errorf "parse database config failure: " errBadConnString)),
          []) /\
     pool d' = None) /\
  (exists d',
     DBHelper_Connect (drv := driver poolless) (helper poolless None) "postgres://db" 5 []
       = (Ret (d', Some (fmt.Errorf "database pool creation failure: " errNoPool)),
          [EvNewPool (WithTimeout Background 5) (Some {| Database := "postgres://db" |})]) /\
     pool d' = None) /\
  DBHelper_Connect (drv := driver healthy) (helper healthy None) "postgres://db" 5 []
    = (Ret (helper healthy (Some 1), None),
       [EvNewPool (WithTimeout Background 5) (Some {| Database := "postgres://db" |});
        EvPing 1 (WithTimeout Background 5);
        EvQuery (QuerierPool (Some 1)) (WithTimeout Background 5) catalogQuery
          [anyString "testdb"];
        EvRowsClose]).
Proof.
  split; [ | split].
  - exact (proj1 (Connect_failure_leaves_no_pool (drv := driver unparsable)
                    (helper unparsable None) "%%" 5 [] eq_refl)
             None errBadConnString eq_refl).
  - exact (proj1 (proj2 (Connect_failure_leaves_no_pool (drv := driver poolless)
                           (helper poolless None) "postgres://db" 5 [] eq_refl))
             (Some {| Database := "postgres://db" |}) errNoPool _ eq_refl eq_refl).
  - exact (proj2 (proj2 (Connect_failure_leaves_no_pool (drv := driver healthy)
                           (helper healthy None) "postgres://db" 5 [] eq_refl))
             (Some {| Database := "postgres://db" |}) (Some 1) _ eq_refl eq_refl).
Defined.

Lemma Ping_outcomes_witness :
  DBHelper_Ping (drv := driver healthy) (helper healthy (Some 1)) Background []
    = (Ret None,
       [EvPing 1 Background;
        EvQuery (QuerierPool (Some 1)) Background catalogQuery [anyString "testdb"];
        EvRowsClose]) /\
  DBHelper_Ping (drv := driver failingAtExecute) (helper failingAtExecute (Some 1))
      Background []
    = (Ret None,
       [EvPing 1 Background;
        EvQuery (QuerierPool (Some 1)) Background catalogQuery [anyString "testdb"];
        EvRowsClose]) /\
  DBHelper_Ping (drv := driver unreachable) (helper unreachable (Some 1)) Background []
    = (Ret (Some (fmt.Errorf "database ping error: " errNoPing)), [EvPing 1 Background]).
Proof.
  split; [ | split].
  - exact (Ping_outcomes (drv := driver healthy) (helper healthy (Some 1)) Background 1 []
             eq_refl).
  - exact (Ping_outcomes (drv := driver failingAtExecute) (helper failingAtExecute (Some 1))
             Background 1 [] eq_refl).
  - exact (Ping_outcomes (drv := driver unreachable) (helper unreachable (Some 1))
             Background 1 [] eq_refl).
Defined.

(** A query that the database rejects when it executes it leaves its
    failure in the rows; [Ping] closes them unread and reports success. *)
Lemma Ping_ignores_rows_error :
  rowsErr (on_query failingAtExecute catalogQuery [anyString "testdb"]).1
    = Some errAtExecute /\
  (DBHelper_Ping (drv := driver failingAtExecute) (helper failingAtExecute (Some 1))
     Background []).1 = Ret None.
Proof. split; reflexivity. Qed.

(** C7 as the specification states it fails: on the healthy script the
    catalog holds no database of the configured name (the catalog query
    returns no row), and [Ping] reports success all the same. *)
Lemma Ping_does_not_confirm_name : ¬ Ping_confirms_name.
Proof.
  intros H.
  apply (H healthy 1 Background [] _ eq_refl).
  reflexivity.
Qed.

End Scripted.

(** * Further properties of the code *)

(** ** Contexts built by other packages, and construction *)

Section Construction.
Context {World : Type}.
Implicit Types (d : DBHelper (World := World)) (ctx : Context).

(** Scopes added under other keys, timeouts and cancellations change
    nothing of what the resolver answers, whatever values they hold: a
    transaction stored under a key of another type is not picked up. *)
Theorem resolution_ignores_foreign_scopes d (c0 : Context) ctx :
  Derived c0 ctx ->
  ctxGetTx ctx = ctxGetTx c0 /\ DBHelper_Querier d ctx = DBHelper_Querier d c0.
Proof.
  intros H. pose proof (Derived_ctxGetTx c0 ctx H) as Heq.
  split; [done | ]. unfold DBHelper_Querier. by rewrite Heq.
Qed.

Lemma foldl_WithScanAPI (apis : list ScanAPI) d :
  foldl (fun h (opt : Option) => opt h) d (WithScanAPI <$> apis) =
    {| pool := pool d; scanAPI := default (scanAPI d) (last apis) |}.
Proof.
  revert d. induction apis as [ | api apis IH]; intros d.
  - by destruct d.
  - rewrite fmap_cons. simpl. rewrite IH. unfold WithScanAPI. simpl.
    rewrite last_cons. by destruct (last apis).
Qed.

(** [New] connects nothing: the pool is nil.  Of the options made by
    [WithScanAPI] the last one decides the collaborator, and without any
    the default stays. *)
Theorem New_applies_options (defaultAPI : ScanAPI (World := World)) (apis : list ScanAPI) :
  New defaultAPI (WithScanAPI <$> apis) =
    {| pool := None; scanAPI := default defaultAPI (last apis) |}.
Proof. unfold New. by rewrite foldl_WithScanAPI. Qed.

End Construction.

(** ** What the verbs do inside a transaction *)

Section InTransaction.
Context {World : Type} {drv : Driver World}.
Implicit Types (d : DBHelper (World := World)) (ctx : Context) (t : TxHandle) (w : World).

(** The answer of [Exec] read backwards: the driver's call returned, the
    world is the one it left, and [Exec] reports an error exactly when the
    driver did: then the count is 0 and the error is the driver's under
    the prefix; otherwise the count is the one of the command tag. *)
Theorem Exec_answer_inversion d ctx query args w n err w' :
  DBHelper_Exec d ctx query args w = (Ret (n, err), w') ->
  exists tag uerr,
    Querier_Exec (DBHelper_Querier d ctx) ctx query args w = (Ret (tag, uerr), w') /\
    match uerr with
    | Some e => n = 0%Z /\ err = Some (fmt.Errorf "exec failed: " e)
    | None => n = RowsAffected tag /\ err = None
    end.
Proof.
  unfold DBHelper_Exec, mbind, M_bind, mret, M_ret.
  destruct (Querier_Exec _ ctx query args w) as [[[tag uerr] | v] w1]; [ | done].
  destruct uerr as [e | ]; intros H; injection H as <- <- <-;
    exists tag; eexists; (split; [reflexivity | done]).
Qed.

(** On a context that carries [t], [Exec] runs on [t] and on nothing
    else: the helper's pool is not consulted, so the answer is the same
    for a helper that has no pool. *)
Theorem Exec_in_transaction_ignores_pool d ctx t query args w :
  Carries ctx t ->
  DBHelper_Exec d ctx query args w =
    (Ret match (tx_Exec t ctx query args w).1 with
         | (tag, Some e) => (0%Z, Some (fmt.Errorf "exec failed: " e))
         | (tag, None) => (RowsAffected tag, None)
         end,
     (tx_Exec t ctx query args w).2).
Proof.
  intros H. apply Carries_ctxGetTx in H.
  unfold DBHelper_Exec, DBHelper_Querier, mbind, M_bind. rewrite H. simpl.
  unfold call. destruct (tx_Exec t ctx query args w) as [[tag [e | ]] w1]; done.
Qed.

(** On a context that carries [t], [Get] and [Select] hand [t] to the
    row-mapping collaborator. *)
Theorem Get_Select_in_transaction d ctx t dest query args :
  Carries ctx t ->
  DBHelper_Get d ctx dest query args =
    scan_Get (scanAPI d) ctx (QuerierTx t) dest query args /\
  DBHelper_Select d ctx dest query args =
    scan_Select (scanAPI d) ctx (QuerierTx t) dest query args.
Proof.
  intros H. apply Carries_ctxGetTx in H.
  unfold DBHelper_Get, DBHelper_Select, DBHelper_Querier. by rewrite H.
Qed.

(** A statement run by the unit of work on the context it was given goes
    to the transaction the runner began.  When the statement succeeds the
    runner commits; when it fails the runner rolls back and returns the
    driver's error under the prefix of [Exec]. *)
Theorem statement_in_WithinTransaction d ctx opt p t query args w w1 :
  ctxGetTx ctx = None ->
  pool d = Some p ->
  pool_BeginTx p ctx (firstOrZero opt) w = ((Some t, None), w1) ->
  DBHelper_WithinTransaction d ctx
      (fun txCtx => '(_, err) ← DBHelper_Exec d txCtx query args; mret err) opt w =
    match tx_Exec t (ctxWithTx ctx (Some t)) query args w1 with
    | ((tag, None), w2) => (Ret (tx_Commit t ctx w2).1, (tx_Commit t ctx w2).2)
    | ((tag, Some e), w2) =>
        (Ret (Some (fmt.Errorf "exec failed: " e)), (tx_Rollback t ctx w2).2)
    end.
Proof.
  intros Hctx Hpool Hbegin.
  rewrite WithinTransaction_BeginTxFunc by done.
  unfold BeginTxFunc, Pool_BeginTx, Tx_Commit, Tx_Rollback, call, mbind, M_bind.
  rewrite Hpool, Hbegin.
  unfold DBHelper_Exec, DBHelper_Querier, mbind, M_bind.
  rewrite ctxGetTx_ctxWithTx. simpl. unfold call.
  destruct (tx_Exec t _ query args w1) as [[tag [e | ]] w2]; simpl.
  - by destruct (tx_Rollback t ctx w2).
  - by destruct (tx_Commit t ctx w2).
Qed.

(** A unit of work that opens a transaction of its own on the context it
    was given makes the runner panic, whatever the inner unit of work and
    the helper it is called on. *)
Theorem nested_WithinTransaction_panics d d2 ctx g opt opt2 p t w w1 :
  ctxGetTx ctx = None ->
  pool d = Some p ->
  pool_BeginTx p ctx (firstOrZero opt) w = ((Some t, None), w1) ->
  (DBHelper_WithinTransaction d ctx
     (fun txCtx => DBHelper_WithinTransaction d2 txCtx g opt2) opt w).1 =
    Panic "context already contains an unexpected transaction".
Proof.
  intros Hctx Hpool Hbegin.
  rewrite WithinTransaction_BeginTxFunc by done.
  unfold BeginTxFunc, Pool_BeginTx, call, mbind, M_bind.
  rewrite Hpool, Hbegin.
  unfold DBHelper_WithinTransaction, mbind, M_bind.
  rewrite (requireNoTransaction_present d2 _ t w1) by apply ctxGetTx_ctxWithTx.
  done.
Qed.

(** The runner returns nil only when the context carried no transaction,
    the helper had a pool, the transaction began, the unit of work
    returned nil and the commit returned nil. *)
Theorem WithinTransaction_nil_inversion d ctx fn opt w w' :
  DBHelper_WithinTransaction d ctx fn opt w = (Ret None, w') ->
  ctxGetTx ctx = None /\
  exists p tx w1 w2,
    pool d = Some p /\
    pool_BeginTx p ctx (firstOrZero opt) w = ((tx, None), w1) /\
    fn (ctxWithTx ctx tx) w1 = (Ret None, w2) /\
    Tx_Commit tx ctx w2 = (Ret None, w').
Proof.
  intros H.
  destruct (ctxGetTx ctx) as [t | ] eqn:Hctx.
  { unfold DBHelper_WithinTransaction, mbind, M_bind in H.
    by rewrite (requireNoTransaction_present d ctx t w Hctx) in H. }
  split; [done | ].
  rewrite WithinTransaction_BeginTxFunc in H by done.
  unfold BeginTxFunc, Pool_BeginTx, call, mbind, M_bind, mret, M_ret in H.
  destruct (pool d) as [p | ]; [ | done].
  destruct (pool_BeginTx p ctx (firstOrZero opt) w) as [[tx [e | ]] w1] eqn:Hbegin; [done | ].
  destruct (fn (ctxWithTx ctx tx) w1) as [[[E | ] | v] w2] eqn:Hfn.
  - by destruct (Tx_Rollback tx ctx w2) as [[ ? | ? ] ?].
  - exists p, tx, w1, w2. done.
  - done.
Qed.

End InTransaction.

(** ** What [Connect] leaves behind *)

Section ConnectAnswers.
Context {World : Type} {drv : Driver World}.
Implicit Types (d : DBHelper (World := World)) (ctx : Context) (w : World).

Lemma Ping_nil_inversion d ctx w w' :
  DBHelper_Ping d ctx w = (Ret None, w') ->
  exists p w1 rows w2,
    pool d = Some p /\
    pool_Ping p ctx w = (None, w1) /\
    pool_Query p ctx catalogQuery [anyString (pool_Database p)] w1 = ((rows, None), w2) /\
    w' = (rows_Close rows w2).2.
Proof.
  unfold DBHelper_Ping, Pool_Ping, Pool_Database, Pool_Query, call, mbind, M_bind,
    mret, M_ret, catalogQuery.
  destruct (pool d) as [p | ]; [ | done].
  destruct (pool_Ping p ctx w) as [[e | ] w1] eqn:Hping; [done | ].
  destruct (pool_Query p ctx _ _ w1) as [[rows [e | ]] w2] eqn:Hquery; [done | ].
  destruct (rows_Close rows w2) as [[] w3] eqn:Hclose.
  intros H. injection H as <-.
  exists p, w1, rows, w2. by rewrite Hping, Hquery, Hclose.
Qed.

Lemma Ping_error_inversion d ctx w err w' :
  DBHelper_Ping d ctx w = (Ret (Some err), w') ->
  exists p,
    pool d = Some p /\
    ((exists e,
        pool_Ping p ctx w = (Some e, w') /\
        err = fmt.Errorf "database ping error: " e) \/
     (exists w1 rows e,
        pool_Ping p ctx w = (None, w1) /\
        pool_Query p ctx catalogQuery [anyString (pool_Database p)] w1
          = ((rows, Some e), w') /\
        err = fmt.Errorf "database query failure: " e)).
Proof.
  unfold DBHelper_Ping, Pool_Ping, Pool_Database, Pool_Query, call, mbind, M_bind,
    mret, M_ret, catalogQuery.
  destruct (pool d) as [p | ]; [ | done].
  destruct (pool_Ping p ctx w) as [[e | ] w1] eqn:Hping.
  - intros H. injection H as <- <-. exists p. split; [done | ].
    left. by exists e.
  - destruct (pool_Query p ctx _ _ w1) as [[rows [e | ]] w2] eqn:Hquery.
    + intros H. injection H as <- <-. exists p. split; [done | ].
      right. exists w1, rows, e. by rewrite Hquery.
    + by destruct (rows_Close rows w2) as [[] w3].
Qed.

(** [Connect] returns nil only when the connection string parsed, the
    pool was created, the ping returned no error and the call to [Query]
    returned no error, each under the setup context; the helper then
    holds the pool that was created and the collaborator it had.  The
    rows are closed unread, so nothing is said of what they hold or of
    what [Err] reports of them. *)
Theorem Connect_nil_inversion d connStr timeout w d' w' :
  DBHelper_Connect d connStr timeout w = (Ret (d', None), w') ->
  exists conf p w1 w2 rows w3,
    ParseConfig connStr = (conf, None) /\
    NewWithConfig (WithTimeout Background timeout) conf w = ((Some p, None), w1) /\
    pool_Ping p (WithTimeout Background timeout) w1 = (None, w2) /\
    pool_Query p (WithTimeout Background timeout) catalogQuery
      [anyString (pool_Database p)] w2 = ((rows, None), w3) /\
    w' = (rows_Close rows w3).2 /\
    d' = {| pool := Some p; scanAPI := scanAPI d |}.
Proof.
  unfold DBHelper_Connect, call.
  destruct (ParseConfig connStr) as [conf [e | ]] eqn:Hparse; [done | ].
  unfold mbind at 1. unfold M_bind at 1.
  destruct (NewWithConfig _ conf w) as [[p [e | ]] w1] eqn:Hnew; [done | ].
  unfold mbind, M_bind, mret, M_ret.
  destruct (DBHelper_Ping _ _ w1) as [[[err | ] | v] w4] eqn:HPing; [done | | done].
  intros H. injection H as <- <-.
  apply Ping_nil_inversion in HPing as (p' & w2 & rows & w3 & Hp & Hping & Hquery & Hw).
  simpl in Hp. subst p.
  exists conf, p', w1, w2, rows, w3. done.
Qed.

(** Whatever [Connect] returns, the helper keeps the collaborator it
    had.  When it returns nil the helper holds a pool.  When it returns an
    error, one of four driver calls answered an error [e], the world is
    the one that call left, and the error returned is [e] under the prefix
    of that stage: the parse (the helper is untouched), the creation of
    the pool (the helper holds what the driver answered as pool), the
    ping, or the call to [Query] (the helper holds the new pool). *)
Theorem Connect_errors_are_wrapped d connStr timeout w d' r w' :
  DBHelper_Connect d connStr timeout w = (Ret (d', r), w') ->
  scanAPI d' = scanAPI d /\
  match r with
  | None => exists p, pool d' = Some p
  | Some err =>
      (exists conf e,
         ParseConfig connStr = (conf, Some e) /\
         err = fmt.Errorf "parse database config failure: " e /\
         d' = d /\ w' = w) \/
      (exists conf p e,
         ParseConfig connStr = (conf, None) /\
         NewWithConfig (WithTimeout Background timeout) conf w = ((p, Some e), w') /\
         err = fmt.Errorf "database pool creation failure: " e /\
         pool d' = p) \/
      (exists conf p w1 e,
         ParseConfig connStr = (conf, None) /\
         NewWithConfig (WithTimeout Background timeout) conf w = ((Some p, None), w1) /\
         pool_Ping p (WithTimeout Background timeout) w1 = (Some e, w') /\
         err = fmt.Errorf "database ping error: " e /\
         pool d' = Some p) \/
      (exists conf p w1 w2 rows e,
         ParseConfig connStr = (conf, None) /\
         NewWithConfig (WithTimeout Background timeout) conf w = ((Some p, None), w1) /\
         pool_Ping p (WithTimeout Background timeout) w1 = (None, w2) /\
         pool_Query p (WithTimeout Background timeout) catalogQuery
           [anyString (pool_Database p)] w2 = ((rows, Some e), w') /\
         err = fmt.Errorf "database query failure: " e /\
         pool d' = Some p)
  end.
Proof.
  unfold DBHelper_Connect, call.
  destruct (ParseConfig connStr) as [conf [e | ]] eqn:Hparse.
  - intros H. injection H as <- <- <-. split; [done | ].
    left. by exists conf, e.
  - unfold mbind at 1. unfold M_bind at 1.
    destruct (NewWithConfig _ conf w) as [[p [e | ]] w1] eqn:Hnew.
    + intros H. injection H as <- <- <-. split; [done | ].
      right; left. by exists conf, p, e.
    + unfold mbind, M_bind, mret, M_ret.
      destruct (DBHelper_Ping _ _ w1) as [[r0 | v] w4] eqn:HPing; [ | done].
      intros H. injection H as <- <- <-. split; [done | ].
      destruct r0 as [err | ].
      * apply Ping_error_inversion in HPing
          as (p' & Hp & [(e & Hping & ->) | (w2 & rows & e & Hping & Hquery & ->)]);
          simpl in Hp; subst p; right; right.
        -- left. by exists conf, p', w1, e.
        -- right. by exists conf, p', w1, w2, rows, e.
      * apply Ping_nil_inversion in HPing as (p' & _ & _ & _ & Hp & _).
        by exists p'.
Qed.

(** When the pool was created and the ping fails, [Connect] returns the
    error and the helper keeps the pool: nothing closes it, and the
    catalog query is not sent. *)
Theorem Connect_ping_failure_keeps_pool d connStr timeout w conf p w1 e w2 :
  ParseConfig connStr = (conf, None) ->
  NewWithConfig (WithTimeout Background timeout) conf w = ((Some p, None), w1) ->
  pool_Ping p (WithTimeout Background timeout) w1 = (Some e, w2) ->
  DBHelper_Connect d connStr timeout w =
    (Ret ({| pool := Some p; scanAPI := scanAPI d |},
          Some (fmt.Errorf "database ping error: " e)), w2).
Proof.
  intros Hparse Hnew Hping.
  unfold DBHelper_Connect, call. rewrite Hparse.
  unfold mbind at 1. unfold M_bind at 1. rewrite Hnew.
  unfold DBHelper_Ping, Pool_Ping, call, mbind, M_bind. simpl.
  by rewrite Hping.
Qed.

(** On a helper that already holds a pool, a second [Connect] whose pool
    creation fails overwrites the pool with the nil one the driver
    answered; the pool held before is not closed. *)
Theorem Connect_again_failure_drops_pool d connStr timeout w p0 conf e w' :
  pool d = Some p0 ->
  ParseConfig connStr = (conf, None) ->
  NewWithConfig (WithTimeout Background timeout) conf w = ((None, Some e), w') ->
  exists d',
    DBHelper_Connect d connStr timeout w =
      (Ret (d', Some (fmt.Errorf "database pool creation failure: " e)), w') /\
    pool d' = None.
Proof.
  intros _ Hparse Hnew.
  exists {| pool := None; scanAPI := scanAPI d |}. split; [ | done].
  unfold DBHelper_Connect, call, mbind, M_bind. by rewrite Hparse, Hnew.
Qed.

End ConnectAnswers.

(** ** The named-query variant and the wrapped helper *)

Section NamedAnswers.
Context {World : Type} {drv : Driver World}.
Implicit Types (d : sqlsetpgxhelper.DBHelper (World := World)) (ctx : Context) (w : World).

(** An error of the named [Exec] always comes with the count 0, and it is
    one of two: the error of the lookup as it is, with nothing sent to the
    database, or the error [e] that the [Exec] of the resolved querier
    answered for the SQL text of the set, under the prefix of [Exec]. *)
Theorem named_Exec_error_inversion d ctx setID queryID args w n err w' :
  sqlsetpgxhelper.DBHelper_Exec d ctx setID queryID args w = (Ret (n, Some err), w') ->
  n = 0%Z /\
  ((exists text,
      sqlset.SQLSet_Get (sqlsetpgxhelper.sqlSet d) setID queryID = (text, Some err) /\
      w' = w) \/
   (exists text tag e,
      sqlset.SQLSet_Get (sqlsetpgxhelper.sqlSet d) setID queryID = (text, None) /\
      Querier_Exec (DBHelper_Querier (sqlsetpgxhelper.embedded d) ctx) ctx text args w
        = (Ret (tag, Some e), w') /\
      err = fmt.Errorf "exec failed: " e)).
Proof.
  unfold sqlsetpgxhelper.DBHelper_Exec.
  destruct (sqlset.SQLSet_Get _ setID queryID) as [text [lerr | ]].
  - intros H. injection H as <- <- <-. split; [done | ]. left. by exists text.
  - unfold DBHelper_Exec, mbind, M_bind, mret, M_ret.
    destruct (Querier_Exec _ ctx text args w) as [[[tag [e | ]] | v] w1] eqn:Hexec;
      [ | done | done].
    intros H. injection H as <- <- <-. split; [done | ]. right.
    by exists text, tag, e.
Qed.

(** A registered query run on a context that carries [t] is looked up
    and sent to [t], with the arguments as given. *)
Theorem named_Exec_in_transaction d ctx t setID queryID args text w :
  Carries ctx t ->
  sqlset.SQLSet_Get (sqlsetpgxhelper.sqlSet d) setID queryID = (text, None) ->
  sqlsetpgxhelper.DBHelper_Exec d ctx setID queryID args w =
    (Ret match (tx_Exec t ctx text args w).1 with
         | (tag, Some e) => (0%Z, Some (fmt.Errorf "exec failed: " e))
         | (tag, None) => (RowsAffected tag, None)
         end,
     (tx_Exec t ctx text args w).2).
Proof.
  intros H Hget. apply Carries_ctxGetTx in H.
  unfold sqlsetpgxhelper.DBHelper_Exec. rewrite Hget.
  unfold DBHelper_Exec, DBHelper_Querier, mbind, M_bind. rewrite H. simpl.
  unfold call. destruct (tx_Exec t ctx text args w) as [[tag [e | ]] w1]; done.
Qed.

(** A registered query handed to [Get] or [Select] reaches the
    collaborator of the wrapped helper with the SQL text of the set and
    the querier resolved from the context. *)
Theorem named_Get_Select_delegate d ctx dest setID queryID args text :
  sqlset.SQLSet_Get (sqlsetpgxhelper.sqlSet d) setID queryID = (text, None) ->
  sqlsetpgxhelper.DBHelper_Get d ctx dest setID queryID args =
    scan_Get (scanAPI (sqlsetpgxhelper.embedded d)) ctx
      (DBHelper_Querier (sqlsetpgxhelper.embedded d) ctx) dest text args /\
  sqlsetpgxhelper.DBHelper_Select d ctx dest setID queryID args =
    scan_Select (scanAPI (sqlsetpgxhelper.embedded d)) ctx
      (DBHelper_Querier (sqlsetpgxhelper.embedded d) ctx) dest text args.
Proof.
  intros Hget.
  unfold sqlsetpgxhelper.DBHelper_Get, sqlsetpgxhelper.DBHelper_Select.
  by rewrite Hget.
Qed.

End NamedAnswers.

(** ** The further properties on the scripted driver *)

Section ScriptedFurther.
Import scripted.
Local Open Scope list_scope.

Lemma resolution_ignores_foreign_scopes_witness :
  Derived Background (WithValue Background (userKey "tx") (anyTx 9)) /\
  ctxGetTx (WithValue Background (userKey "tx") (anyTx 9)) = None /\
  DBHelper_Querier (helper healthy (Some 1)) (WithValue Background (userKey "tx") (anyTx 9))
    = QuerierPool (Some 1).
Proof.
  assert (H : Derived Background (WithValue Background (userKey "tx") (anyTx 9))).
  { apply Derived_value; [discriminate | apply Derived_refl]. }
  split; [exact H | ].
  exact (resolution_ignores_foreign_scopes (helper healthy (Some 1)) Background _ H).
Defined.

Lemma Exec_answer_inversion_witness :
  exists tag uerr,
    Querier_Exec (drv := driver rejecting)
        (DBHelper_Querier (helper rejecting (Some 1)) Background) Background
        insertSQL [anyString "111"] []
      = (Ret (tag, uerr),
         [EvExec (QuerierPool (Some 1)) Background insertSQL [anyString "111"]]) /\
    match uerr with
    | Some e =>
        0%Z = 0%Z /\
        Some (fmt.Errorf "exec failed: " errDuplicateKey)
          = Some (fmt.Errorf "exec failed: " e)
    | None =>
        0%Z = RowsAffected tag /\
        Some (fmt.Errorf "exec failed: " errDuplicateKey) = None
    end.
Proof.
  exact (Exec_answer_inversion (drv := driver rejecting) (helper rejecting (Some 1))
           Background insertSQL [anyString "111"] [] 0%Z
           (Some (fmt.Errorf "exec failed: " errDuplicateKey)) _ eq_refl).
Defined.

Lemma Exec_in_transaction_ignores_pool_witness :
  Carries txCtx 7 /\
  DBHelper_Exec (drv := driver healthy) (helper healthy None) txCtx
      insertSQL [anyString "111"] []
    = (Ret (1%Z, None), [EvExec (QuerierTx 7) txCtx insertSQL [anyString "111"]]).
Proof.
  split; [exact txCtx_Carries | ].
  exact (Exec_in_transaction_ignores_pool (drv := driver healthy) (helper healthy None)
           txCtx 7 insertSQL [anyString "111"] [] txCtx_Carries).
Defined.

Lemma Get_Select_in_transaction_witness :
  DBHelper_Get (helper healthy None) txCtx anyNil "SELECT 1" [] []
    = (Ret (anyNil, Some ErrNoRows), [EvQuery (QuerierTx 7) txCtx "SELECT 1" []]) /\
  DBHelper_Select (helper healthy None) txCtx anyNil "SELECT 1" [] []
    = (Ret (anyInt 0, None), [EvQuery (QuerierTx 7) txCtx "SELECT 1" []]).
Proof.
  split.
  - exact (f_equal (fun m => m [])
             (proj1 (Get_Select_in_transaction (helper healthy None) txCtx 7 anyNil
                       "SELECT 1" [] txCtx_Carries))).
  - exact (f_equal (fun m => m [])
             (proj2 (Get_Select_in_transaction (helper healthy None) txCtx 7 anyNil
                       "SELECT 1" [] txCtx_Carries))).
Defined.

Lemma statement_in_WithinTransaction_witness :
  DBHelper_WithinTransaction (drv := driver rejecting) (helper rejecting (Some 1))
      requestCtx
      (fun txCtx =>
         '(_, err) ← DBHelper_Exec (drv := driver rejecting) (helper rejecting (Some 1))
                       txCtx insertSQL [anyString "111"];
         mret err)
      [] []
    = (Ret (Some (fmt.Errorf "exec failed: " errDuplicateKey)),
       [EvBeginTx 1 requestCtx zeroTxOptions;
        EvExec (QuerierTx 0) (ctxWithTx requestCtx (Some 0)) insertSQL [anyString "111"];
        EvRollback 0 requestCtx]).
Proof.
  exact (statement_in_WithinTransaction (drv := driver rejecting)
           (helper rejecting (Some 1)) requestCtx [] 1 0 insertSQL [anyString "111"] [] _
           eq_refl eq_refl eq_refl).
Defined.

Lemma nested_WithinTransaction_panics_witness :
  (DBHelper_WithinTransaction (drv := driver healthy) (helper healthy (Some 1)) Background
     (fun txCtx =>
        DBHelper_WithinTransaction (drv := driver healthy) (helper healthy (Some 2)) txCtx
          (insertUser healthy (Some 2)) [readOnly])
     [] []).1
    = Panic "context already contains an unexpected transaction".
Proof.
  exact (nested_WithinTransaction_panics (drv := driver healthy) (helper healthy (Some 1))
           (helper healthy (Some 2)) Background (insertUser healthy (Some 2)) [] [readOnly]
           1 0 [] _ eq_refl eq_refl eq_refl).
Defined.

Lemma WithinTransaction_nil_inversion_witness :
  ctxGetTx Background = None /\
  exists p tx w1 w2,
    pool (helper healthy (Some 1)) = Some p /\
    pool_BeginTx (Driver := driver healthy) p Background (firstOrZero []) []
      = ((tx, None), w1) /\
    (mret None : M Log (option error)) w1 = (Ret None, w2) /\
    Tx_Commit (drv := driver healthy) tx Background w2
      = (Ret None, [EvBeginTx 1 Background zeroTxOptions; EvCommit 0 Background]).
Proof.
  exact (WithinTransaction_nil_inversion (drv := driver healthy) (helper healthy (Some 1))
           Background (fun _ => mret None) [] [] _ eq_refl).
Defined.

Lemma WithinTransaction_begin_failure_witness :
  DBHelper_WithinTransaction (drv := driver refusing) (helper refusing (Some 1)) Background
      (insertUser refusing (Some 1)) [serializable] []
    = (Ret (Some errNoBegin), [EvBeginTx 1 Background serializable]).
Proof.
  exact (WithinTransaction_begin_failure (drv := driver refusing) (helper refusing (Some 1))
           Background (insertUser refusing (Some 1)) [serializable] 1 None errNoBegin [] _
           eq_refl eq_refl eq_refl).
Defined.

Lemma Connect_nil_inversion_witness :
  exists conf p w1 w2 rows w3,
    ParseConfig (Driver := driver healthy) "postgres://db" = (conf, None) /\
    NewWithConfig (Driver := driver healthy) (WithTimeout Background 5) conf []
      = ((Some p, None), w1) /\
    pool_Ping (Driver := driver healthy) p (WithTimeout Background 5) w1 = (None, w2) /\
    pool_Query (Driver := driver healthy) p (WithTimeout Background 5) catalogQuery
      [anyString (pool_Database (Driver := driver healthy) p)] w2 = ((rows, None), w3) /\
    [EvNewPool (WithTimeout Background 5) (Some {| Database := "postgres://db" |});
     EvPing 1 (WithTimeout Background 5);
     EvQuery (QuerierPool (Some 1)) (WithTimeout Background 5) catalogQuery
       [anyString "testdb"];
     EvRowsClose] = (rows_Close (Driver := driver healthy) rows w3).2 /\
    helper healthy (Some 1) = {| pool := Some p; scanAPI := scanAPI (helper healthy None) |}.
Proof.
  exact (Connect_nil_inversion (drv := driver healthy) (helper healthy None)
           "postgres://db" 5 [] (helper healthy (Some 1)) _ eq_refl).
Defined.

Lemma Connect_errors_are_wrapped_witness :
  scanAPI (helper unreachable (Some 1)) = scanAPI (helper unreachable None) /\
  ((exists conf e,
      ParseConfig (Driver := driver unreachable) "postgres://db" = (conf, Some e) /\
      fmt.Errorf "database ping error: " errNoPing
        = fmt.Errorf "parse database config failure: " e /\
      helper unreachable (Some 1) = helper unreachable None /\
      [EvNewPool (WithTimeout Background 5) (Some {| Database := "postgres://db" |});
       EvPing 1 (WithTimeout Background 5)] = []) \/
   (exists conf p e,
      ParseConfig (Driver := driver unreachable) "postgres://db" = (conf, None) /\
      NewWithConfig (Driver := driver unreachable) (WithTimeout Background 5) conf []
        = ((p, Some e),
           [EvNewPool (WithTimeout Background 5) (Some {| Database := "postgres://db" |});
            EvPing 1 (WithTimeout Background 5)]) /\
      fmt.Errorf "database ping error: " errNoPing
        = fmt.Errorf "database pool creation failure: " e /\
      pool (helper unreachable (Some 1)) = p) \/
   (exists conf p w1 e,
      ParseConfig (Driver := driver unreachable) "postgres://db" = (conf, None) /\
      NewWithConfig (Driver := driver unreachable) (WithTimeout Background 5) conf []
        = ((Some p, None), w1) /\
      pool_Ping (Driver := driver unreachable) p (WithTimeout Background 5) w1
        = (Some e,
           [EvNewPool (WithTimeout Background 5) (Some {| Database := "postgres://db" |});
            EvPing 1 (WithTimeout Background 5)]) /\
      fmt.Errorf "database ping error: " errNoPing = fmt.Errorf "database ping error: " e /\
      pool (helper unreachable (Some 1)) = Some p) \/
   (exists conf p w1 w2 rows e,
      ParseConfig (Driver := driver unreachable) "postgres://db" = (conf, None) /\
      NewWithConfig (Driver := driver unreachable) (WithTimeout Background 5) conf []
        = ((Some p, None), w1) /\
      pool_Ping (Driver := driver unreachable) p (WithTimeout Background 5) w1
        = (None, w2) /\
      pool_Query (Driver := driver unreachable) p (WithTimeout Background 5) catalogQuery
        [anyString (pool_Database (Driver := driver unreachable) p)] w2
        = ((rows, Some e),
           [EvNewPool (WithTimeout Background 5) (Some {| Database := "postgres://db" |});
            EvPing 1 (WithTimeout Background 5)]) /\
      fmt.Errorf "database ping error: " errNoPing
        = fmt.Errorf "database query failure: " e /\
      pool (helper unreachable (Some 1)) = Some p)).
Proof.
  exact (Connect_errors_are_wrapped (drv := driver unreachable) (helper unreachable None)
           "postgres://db" 5 [] (helper unreachable (Some 1))
           (Some (fmt.Errorf "database ping error: " errNoPing)) _ eq_refl).
Defined.

Lemma Connect_ping_failure_keeps_pool_witness :
  DBHelper_Connect (drv := driver unreachable) (helper unreachable None) "postgres://db" 5 []
    = (Ret (helper unreachable (Some 1),
            Some (fmt.Errorf "database ping error: " errNoPing)),
       [EvNewPool (WithTimeout Background 5) (Some {| Database := "postgres://db" |});
        EvPing 1 (WithTimeout Background 5)]).
Proof.
  exact (Connect_ping_failure_keeps_pool (drv := driver unreachable)
           (helper unreachable None) "postgres://db" 5 []
           (Some {| Database := "postgres://db" |}) 1 _ errNoPing _
           eq_refl eq_refl eq_refl).
Defined.

Lemma Connect_again_failure_drops_pool_witness :
  exists d',
    DBHelper_Connect (drv := driver poolless) (helper poolless (Some 4)) "postgres://db" 5 []
      = (Ret (d', Some (fmt.Errorf "database pool creation failure: " errNoPool)),
         [EvNewPool (WithTimeout Background 5) (Some {| Database := "postgres://db" |})]) /\
    pool d' = None.
Proof.
  exact (Connect_again_failure_drops_pool (drv := driver poolless)
           (helper poolless (Some 4)) "postgres://db" 5 [] 4
           (Some {| Database := "postgres://db" |}) errNoPool _
           eq_refl eq_refl eq_refl).
Defined.

Lemma named_Exec_error_inversion_witness :
  (0%Z = 0%Z /\
   ((exists text,
       sqlset.SQLSet_Get (sqlsetpgxhelper.sqlSet (namedHelper healthy (Some 1)))
         "test" "Unknown" = (text, Some sqlset.ErrQueryNotFound) /\
       ([] : Log) = []) \/
    (exists text tag e,
       sqlset.SQLSet_Get (sqlsetpgxhelper.sqlSet (namedHelper healthy (Some 1)))
         "test" "Unknown" = (text, None) /\
       Querier_Exec (drv := driver healthy)
           (DBHelper_Querier (sqlsetpgxhelper.embedded (namedHelper healthy (Some 1)))
              Background) Background text [] []
         = (Ret (tag, Some e), []) /\
       sqlset.ErrQueryNotFound = fmt.Errorf "exec failed: " e))) /\
  (0%Z = 0%Z /\
   ((exists text,
       sqlset.SQLSet_Get (sqlsetpgxhelper.sqlSet (namedHelper rejecting (Some 1)))
         "test" "InsertCustomer"
         = (text, Some (fmt.Errorf "exec failed: " errDuplicateKey)) /\
       [EvExec (QuerierPool (Some 1)) Background insertSQL [anyString "111"]] = []) \/
    (exists text tag e,
       sqlset.SQLSet_Get (sqlsetpgxhelper.sqlSet (namedHelper rejecting (Some 1)))
         "test" "InsertCustomer" = (text, None) /\
       Querier_Exec (drv := driver rejecting)
           (DBHelper_Querier (sqlsetpgxhelper.embedded (namedHelper rejecting (Some 1)))
              Background) Background text [anyString "111"] []
         = (Ret (tag, Some e),
            [EvExec (QuerierPool (Some 1)) Background insertSQL [anyString "111"]]) /\
       fmt.Errorf "exec failed: " errDuplicateKey = fmt.Errorf "exec failed: " e))).
Proof.
  split.
  - exact (named_Exec_error_inversion (drv := driver healthy) (namedHelper healthy (Some 1))
             Background "test" "Unknown" [] [] 0%Z sqlset.ErrQueryNotFound [] eq_refl).
  - exact (named_Exec_error_inversion (drv := driver rejecting)
             (namedHelper rejecting (Some 1)) Background "test" "InsertCustomer"
             [anyString "111"] [] 0%Z (fmt.Errorf "exec failed: " errDuplicateKey) _
             eq_refl).
Defined.

Lemma named_Exec_in_transaction_witness :
  Carries txCtx 7 /\
  sqlsetpgxhelper.DBHelper_Exec (drv := driver healthy) (namedHelper healthy None) txCtx
      "test" "InsertCustomer" [anyString "333"] []
    = (Ret (1%Z, None), [EvExec (QuerierTx 7) txCtx insertSQL [anyString "333"]]).
Proof.
  split; [exact txCtx_Carries | ].
  exact (named_Exec_in_transaction (drv := driver healthy) (namedHelper healthy None)
           txCtx 7 "test" "InsertCustomer" [anyString "333"] insertSQL []
           txCtx_Carries eq_refl).
Defined.

End ScriptedFurther.

(** ** A helper that was built and not yet connected *)

Section BeforeConnect.
Context {World : Type} {drv : Driver World}.
Implicit Types (ctx : Context) (w : World).

(** A helper as [New] builds it has no pool.  On a context without a
    transaction [Ping], [Exec] and [WithinTransaction] then panic on the
    nil pool and reach nothing; the unit of work does not run. *)
Theorem fresh_helper_panics_before_Connect (defaultAPI : ScanAPI (World := World))
  (apis : list ScanAPI) ctx fn opt query args w :
  ctxGetTx ctx = None ->
  DBHelper_Ping (New defaultAPI (WithScanAPI <$> apis)) ctx w
    = (Panic nilDereference, w) /\
  DBHelper_Exec (New defaultAPI (WithScanAPI <$> apis)) ctx query args w
    = (Panic nilDereference, w) /\
  DBHelper_WithinTransaction (New defaultAPI (WithScanAPI <$> apis)) ctx fn opt w
    = (Panic nilDereference, w).
Proof.
  intros Hctx.
  assert (Hpool : pool (New defaultAPI (WithScanAPI <$> apis)) = None).
  { unfold New. by rewrite foldl_WithScanAPI. }
  split; [ | split].
  - by apply Ping_unconnected.
  - by apply Exec_unconnected.
  - by apply WithinTransaction_unconnected.
Qed.

(** The named-query variant, built and not yet connected: a name the set
    does not know is answered by the error of the lookup, and a name it
    knows panics on the nil pool. *)
Theorem fresh_named_helper_before_Connect (defaultAPI : ScanAPI (World := World))
  (set : sqlset.SQLSet) (apis : list ScanAPI) ctx setID queryID args w :
  ctxGetTx ctx = None ->
  sqlsetpgxhelper.DBHelper_Exec
      (sqlsetpgxhelper.New defaultAPI set (WithScanAPI <$> apis)) ctx setID queryID args w =
    match sqlset.SQLSet_Get set setID queryID with
    | (_, Some e) => (Ret (0%Z, Some e), w)
    | (_, None) => (Panic nilDereference, w)
    end.
Proof.
  intros Hctx. unfold sqlsetpgxhelper.DBHelper_Exec, sqlsetpgxhelper.New. simpl.
  destruct (sqlset.SQLSet_Get set setID queryID) as [text [e | ]]; [done | ].
  apply Exec_unconnected; [done | ].
  unfold New. by rewrite foldl_WithScanAPI.
Qed.

End BeforeConnect.

Section ScriptedBeforeConnect.
Import scripted.
Local Open Scope list_scope.

Lemma fresh_helper_panics_before_Connect_witness :
  DBHelper_Ping (drv := driver healthy) (New (api healthy) [WithScanAPI (api rejecting)])
      requestCtx []
    = (Panic nilDereference, []) /\
  DBHelper_Exec (drv := driver healthy) (New (api healthy) [WithScanAPI (api rejecting)])
      requestCtx insertSQL [] []
    = (Panic nilDereference, []) /\
  DBHelper_WithinTransaction (drv := driver healthy)
      (New (api healthy) [WithScanAPI (api rejecting)]) requestCtx
      (insertUser healthy None) [] []
    = (Panic nilDereference, []).
Proof.
  exact (fresh_helper_panics_before_Connect (drv := driver healthy) (api healthy)
           [api rejecting] requestCtx (insertUser healthy None) [] insertSQL [] []
           eq_refl).
Defined.

Lemma fresh_named_helper_before_Connect_witness :
  sqlsetpgxhelper.DBHelper_Exec (drv := driver healthy)
      (sqlsetpgxhelper.New (api healthy) (sqlset.fromMap queries) []) Background
      "test" "Unknown" [] []
    = (Ret (0%Z, Some sqlset.ErrQueryNotFound), []) /\
  sqlsetpgxhelper.DBHelper_Exec (drv := driver healthy)
      (sqlsetpgxhelper.New (api healthy) (sqlset.fromMap queries) []) Background
      "test" "InsertCustomer" [] []
    = (Panic nilDereference, []).
Proof.
  split.
  - exact (fresh_named_helper_before_Connect (drv := driver healthy) (api healthy)
             (sqlset.fromMap queries) [] Background "test" "Unknown" [] [] eq_refl).
  - exact (fresh_named_helper_before_Connect (drv := driver healthy) (api healthy)
             (sqlset.fromMap queries) [] Background "test" "InsertCustomer" [] [] eq_refl).
Defined.

End ScriptedBeforeConnect.
